(** * ChainPe payment-validator glue: session facade and deployment poller

    A shallow embedding of
      - [app/services/soroban_validator.py] (class [SorobanValidatorService]),
      - [contracts/payment_validator/deploy.py] ([get_deployer_keypair],
        [deploy_contract] and the [__main__] block),
    together with the part of the Python runtime they rely on: exceptions,
    truthiness, [str.strip], [repr], [float(str)], [float * int] and
    [int(float)] on IEEE-754 binary64.

    Python code that talks to the outside world (the Stellar SDK, the
    network, the file system, a subprocess, the clock, stdout, the logger)
    is modelled in a state-and-exception monad over the list of events
    performed so far.  The outside world is a record [Env] of reply
    functions; the k-th call of a network operation gets the k-th reply. *)

From Stdlib Require Import ZArith List String Ascii Lia DecimalString.
From Stdlib Require Import Floats.SpecFloat.
From stdpp Require Import gmap strings.

Import ListNotations.
Local Open Scope string_scope.
Local Open Scope Z_scope.
Local Open Scope list_scope.

(** ** Python runtime *)

Module Py.

(** An instance of a subclass of [Exception]: class name and [str(e)]. *)
Record py_exception := mk_exc { exc_class : string; exc_msg : string }.

(** What propagates through a [raise]: [SystemExit] derives from
    [BaseException] only, so [except Exception] does not catch it. *)
Inductive exn :=
| SystemExit (code : Z)
| Exc (e : py_exception).

(** Result of an expression or of a call into a library: a value, or a
    raised [Exception]. *)
Inductive outcome (A : Type) :=
| Ok (a : A)
| Raises (e : py_exception).
Arguments Ok {A} a.
Arguments Raises {A} e.

Definition outcome_bind {A B} (o : outcome A) (f : A -> outcome B) : outcome B :=
  match o with
  | Ok a => f a
  | Raises e => Raises e
  end.

(** Truthiness of [str | None] and of [object | None]. *)
Definition truthy_str (o : option string) : bool :=
  match o with
  | Some s => negb (String.eqb s "")
  | None => false
  end.

Definition truthy_obj {A} (o : option A) : bool :=
  match o with
  | Some _ => true
  | None => false
  end.

(** *** Characters *)

Definition code (c : ascii) : nat := nat_of_ascii c.

Definition is_digit (c : ascii) : bool :=
  (Nat.leb 48 (code c) && Nat.leb (code c) 57)%bool.

Definition digit_value (c : ascii) : Z := Z.of_nat (code c - 48).

(** ASCII characters for which [str.isspace] holds. *)
Definition is_space (c : ascii) : bool :=
  ((Nat.leb 9 (code c) && Nat.leb (code c) 13)
   || (Nat.leb 28 (code c) && Nat.leb (code c) 32))%bool.

Definition lower (c : ascii) : ascii :=
  if (Nat.leb 65 (code c) && Nat.leb (code c) 90)%bool
  then ascii_of_nat (code c + 32) else c.

Fixpoint drop_space (cs : list ascii) : list ascii :=
  match cs with
  | c :: cs' => if is_space c then drop_space cs' else cs
  | [] => []
  end.

(** [str.strip()] *)
Definition strip_chars (cs : list ascii) : list ascii :=
  rev (drop_space (rev (drop_space cs))).

Definition strip (s : string) : string :=
  string_of_list_ascii (strip_chars (list_ascii_of_string s)).

(** [str(n)] for a non-negative [int]. *)
Definition str_of_nat (n : nat) : string :=
  NilEmpty.string_of_uint (Nat.to_uint n).

(** [s[:n]] *)
Definition prefix (n : nat) (s : string) : string := String.substring 0 n s.

(** *** [repr(str)] on ASCII text; bytes of non-ASCII characters are kept. *)

Definition hex_digit (n : nat) : ascii :=
  if Nat.ltb n 10 then ascii_of_nat (48 + n) else ascii_of_nat (87 + n).

Definition repr_char (quote : ascii) (c : ascii) : list ascii :=
  if Ascii.eqb c quote then ["\"%char; c]
  else if Ascii.eqb c "\"%char then ["\"%char; "\"%char]
  else if Nat.eqb (code c) 9 then ["\"%char; "t"%char]
  else if Nat.eqb (code c) 10 then ["\"%char; "n"%char]
  else if Nat.eqb (code c) 13 then ["\"%char; "r"%char]
  else if (Nat.ltb (code c) 32 || Nat.eqb (code c) 127)%bool
       then ["\"%char; "x"%char;
             hex_digit (Nat.div (code c) 16); hex_digit (Nat.modulo (code c) 16)]
  else [c].

Definition has_char (q : ascii) (cs : list ascii) : bool :=
  existsb (Ascii.eqb q) cs.

(** The double quote character. *)
Definition dquote : ascii := ascii_of_nat 34.

Definition repr (s : string) : string :=
  let cs := list_ascii_of_string s in
  let quote :=
    if (has_char "'"%char cs && negb (has_char dquote cs))%bool
    then dquote else "'"%char in
  string_of_list_ascii ([quote] ++ flat_map (repr_char quote) cs ++ [quote]).

(** *** binary64 *)

Definition prec : Z := 53.
Definition emax : Z := 1024.

Abbreviation float := spec_float.

(** [float(n)] for an [int] that fits: round to nearest, ties to even. *)
Definition float_of_int (n : Z) : float := binary_normalize prec emax n 0 false.

(** The binary64 number nearest to [m * 10^d] (ties to even), [m > 0]:
    what [float] yields on a decimal literal with digits [m] and decimal
    exponent [d]. *)
Definition float_of_decimal (neg : bool) (m : positive) (d : Z) : float :=
  match d with
  | Zneg k =>
      let '(q, e, l) :=
        SFdiv_core_binary prec emax (Zpos m) 0 (Zpos (Pos.pow 10 k)) 0 in
      binary_round_aux prec emax neg q e l
  | _ => binary_round prec emax neg (m * Z.to_pos (10 ^ d)) 0
  end.

(** digitpart ::= digit (["_"] digit)*  -- the digits after the first one. *)
Fixpoint digitpart_rest (cs : list ascii) : list ascii * list ascii :=
  match cs with
  | c :: cs' =>
      if is_digit c then
        let '(ds, r) := digitpart_rest cs' in (c :: ds, r)
      else if Ascii.eqb c "_"%char then
        match cs' with
        | c2 :: cs'' =>
            if is_digit c2 then
              let '(ds, r) := digitpart_rest cs'' in (c2 :: ds, r)
            else ([], cs)
        | [] => ([], cs)
        end
      else ([], cs)
  | [] => ([], [])
  end.

(** The longest digitpart at the head of [cs] (no digits when there is none). *)
Definition digitpart (cs : list ascii) : list ascii * list ascii :=
  match cs with
  | c :: cs' =>
      if is_digit c then
        let '(ds, r) := digitpart_rest cs' in (c :: ds, r)
      else ([], cs)
  | [] => ([], [])
  end.

Definition digits_value (ds : list ascii) : Z :=
  fold_left (fun acc c => 10 * acc + digit_value c) ds 0.

(** sign ::= "+" | "-" *)
Definition sign (cs : list ascii) : bool * list ascii :=
  match cs with
  | c :: cs' =>
      if Ascii.eqb c "-"%char then (true, cs')
      else if Ascii.eqb c "+"%char then (false, cs')
      else (false, cs)
  | [] => (false, [])
  end.

(** exponent ::= ("e" | "E") [sign] digitpart; [None] when [cs] is neither
    empty nor an exponent. *)
Definition exponent (cs : list ascii) : option Z :=
  match cs with
  | [] => Some 0
  | c :: cs' =>
      if Ascii.eqb (lower c) "e"%char then
        let '(neg, cs1) := sign cs' in
        match digitpart cs1 with
        | ((_ :: _) as ds, []) =>
            Some (if neg then - digits_value ds else digits_value ds)
        | _ => None
        end
      else None
  end.

(** number ::= [digitpart] "." digitpart | digitpart ["."];
    floatnumber ::= number [exponent].
    Yields the digits as an integer and the decimal exponent. *)
Definition floatnumber (cs : list ascii) : option (Z * Z) :=
  let '(ip, r1) := digitpart cs in
  let '(fp, r2) :=
    match r1 with
    | c :: r1' => if Ascii.eqb c "."%char then digitpart r1' else ([], r1)
    | [] => ([], [])
    end in
  match ip, fp with
  | [], [] => None
  | _, _ =>
      match exponent r2 with
      | Some e => Some (digits_value (ip ++ fp), e - Z.of_nat (length fp))
      | None => None
      end
  end.

Definition float_of_chars (cs : list ascii) : option float :=
  let '(neg, body) := sign (strip_chars cs) in
  let low := string_of_list_ascii (map lower body) in
  if (String.eqb low "inf" || String.eqb low "infinity")%bool
  then Some (S754_infinity neg)
  else if String.eqb low "nan" then Some S754_nan
  else
    match floatnumber body with
    | Some (Zpos m, d) => Some (float_of_decimal neg m d)
    | Some (_, _) => Some (S754_zero neg)
    | None => None
    end.

(** [float(s)] for a [str] of ASCII characters (Python also reads the
    decimal digits and the white space of other scripts). *)
Definition float_of_str (s : string) : outcome float :=
  match float_of_chars (list_ascii_of_string s) with
  | Some x => Ok x
  | None =>
      Raises (mk_exc "ValueError"
                ("could not convert string to float: " +:+ repr s))
  end.

(** [x * y] on floats. *)
Definition float_mul (x y : float) : float := SFmul prec emax x y.

(** [int(x)]: truncation towards zero. *)
Definition int_of_float (x : float) : outcome Z :=
  match x with
  | S754_zero _ => Ok 0
  | S754_finite s m e =>
      Ok (cond_Zopp s (if 0 <=? e then Zpos m * 2 ^ e else Zpos m / 2 ^ (- e)))
  | S754_infinity _ =>
      Raises (mk_exc "OverflowError" "cannot convert float infinity to integer")
  | S754_nan =>
      Raises (mk_exc "ValueError" "cannot convert float NaN to integer")
  end.

End Py.

Export Py.

(** ** The Stellar SDK surface used by the code *)

Module Sdk.

(** [stellar_sdk.Keypair] *)
Record Keypair := { secret : string; public_key : string }.

(** The account object [Server.load_account] returns. *)
Record Account := { account_id : string; sequence : Z }.

Inductive Operation :=
| UploadContractWasm (contract : string)
| CreateContract (wasm_id : string) (address : string).

(** What a [TransactionBuilder] chain builds; [signatures] lists the public
    keys that have signed the envelope. *)
Record Transaction := {
  source : Account;
  network_passphrase : string;
  base_fee : Z;
  operations : list Operation;
  timeout : Z;
  signatures : list string
}.

(** [TransactionBuilder(source, passphrase, base_fee=fee)] *)
Definition TransactionBuilder (src : Account) (passphrase : string) (fee : Z)
  : Transaction :=
  {| source := src; network_passphrase := passphrase; base_fee := fee;
     operations := []; timeout := 0; signatures := [] |}.

Definition append_op (op : Operation) (tx : Transaction) : Transaction :=
  {| source := source tx; network_passphrase := network_passphrase tx;
     base_fee := base_fee tx; operations := operations tx ++ [op];
     timeout := timeout tx; signatures := signatures tx |}.

Definition append_upload_contract_wasm_op (contract : string) :=
  append_op (UploadContractWasm contract).

Definition append_create_contract_op (wasm_id address : string) :=
  append_op (CreateContract wasm_id address).

Definition set_timeout (secs : Z) (tx : Transaction) : Transaction :=
  {| source := source tx; network_passphrase := network_passphrase tx;
     base_fee := base_fee tx; operations := operations tx;
     timeout := secs; signatures := signatures tx |}.

(** [envelope.sign(keypair)] *)
Definition sign (kp : Keypair) (tx : Transaction) : Transaction :=
  {| source := source tx; network_passphrase := network_passphrase tx;
     base_fee := base_fee tx; operations := operations tx;
     timeout := timeout tx; signatures := signatures tx ++ [public_key kp] |}.

(** [stellar_sdk.soroban_rpc.GetTransactionStatus] *)
Inductive GetTransactionStatus := SUCCESS | NOT_FOUND | FAILED.

Definition status_eqb (a b : GetTransactionStatus) : bool :=
  match a, b with
  | SUCCESS, SUCCESS | NOT_FOUND, NOT_FOUND | FAILED, FAILED => true
  | _, _ => false
  end.

(** The reply of [SorobanServer.get_transaction]: the fields the code reads
    and the text [str()] gives for the object. *)
Record GetTransactionResponse := {
  status : GetTransactionStatus;
  result_meta_xdr : option string;
  response_str : string
}.

(** The reply of [SorobanServer.send_transaction]. *)
Record SendTransactionResponse := { hash : string }.

Definition TESTNET_NETWORK_PASSPHRASE : string :=
  "Test SDF Network ; September 2015".

End Sdk.

Export Sdk.

(** ** Effects *)

Module Effects.

Inductive log_level := INFO | WARNING | ERROR.

(** What a run does to the outside world, in order. *)
Inductive event :=
| EvPrint (text : string)
| EvLog (level : log_level) (text : string)
| EvTraceback (e : py_exception)
| EvSleep (secs : Z)
| EvSubprocess (argv : list string) (r : outcome string)
| EvExists (path : string) (r : bool)
| EvRead (path : string) (r : outcome string)
| EvLoadAccount (account : string) (r : outcome Account)
| EvPrepare (tx : Transaction) (r : outcome Transaction)
| EvSend (tx : Transaction) (r : outcome SendTransactionResponse)
| EvGetTransaction (tx_hash : string) (r : outcome GetTransactionResponse).

Abbreviation trace := (list event).

(** The outside world.  The operations that the code may call again and
    again take the number of earlier calls of the same operation, so that
    the k-th call can be answered differently from the others.
    [build_transaction] is the validation the SDK performs while a
    [TransactionBuilder] chain is evaluated: it yields the transaction
    built or raises. *)
Record Env := {
  subprocess_run : list string -> outcome string;
  Keypair_from_secret : string -> outcome Keypair;
  build_transaction : Transaction -> outcome Transaction;
  os_path_exists : string -> bool;
  read_binary : string -> outcome string;
  load_account : nat -> string -> outcome Account;
  prepare_transaction : nat -> Transaction -> outcome Transaction;
  send_transaction : nat -> Transaction -> outcome SendTransactionResponse;
  get_transaction : nat -> string -> outcome GetTransactionResponse
}.

Definition is_load (e : event) : bool :=
  match e with EvLoadAccount _ _ => true | _ => false end.
Definition is_prepare (e : event) : bool :=
  match e with EvPrepare _ _ => true | _ => false end.
Definition is_send (e : event) : bool :=
  match e with EvSend _ _ => true | _ => false end.
Definition is_query (e : event) : bool :=
  match e with EvGetTransaction _ _ => true | _ => false end.
Definition is_sleep (e : event) : bool :=
  match e with EvSleep _ => true | _ => false end.

(** Number of events of one kind in a trace. *)
Fixpoint count (p : event -> bool) (t : trace) : nat :=
  match t with
  | [] => O
  | e :: t' => ((if p e then 1 else 0) + count p t')%nat
  end.

(** Result of running a piece of code: a value or a propagating exception. *)
Inductive res (A : Type) :=
| Val (a : A)
| Exn (e : exn).
Arguments Val {A} a.
Arguments Exn {A} e.

(** A computation: from the events so far to a result and the events
    after it. *)
Definition M (A : Type) : Type := trace -> res A * trace.

Definition ret {A} (a : A) : M A := fun t => (Val a, t).

Definition bind {A B} (m : M A) (k : A -> M B) : M B :=
  fun t =>
    match m t with
    | (Val a, t') => k a t'
    | (Exn e, t') => (Exn e, t')
    end.

Definition raise {A} (e : exn) : M A := fun t => (Exn e, t).

(** [exit(code)] raises [SystemExit]. *)
Definition exit {A} (code : Z) : M A := raise (SystemExit code).

(** [try: body  except Exception as e: handler(e)] *)
Definition try_except {A} (body : M A) (handler : py_exception -> M A) : M A :=
  fun t =>
    match body t with
    | (Exn (Exc e), t') => handler e t'
    | r => r
    end.

Definition emit (e : event) : M unit := fun t => (Val tt, t ++ [e]).

(** A library call: its reply is recorded, and a raised exception
    propagates. *)
Definition call {A} (reply : trace -> outcome A) (ev : outcome A -> event) : M A :=
  fun t =>
    match reply t with
    | Ok a => (Val a, t ++ [ev (Ok a)])
    | Raises e => (Exn (Exc e), t ++ [ev (Raises e)])
    end.

(** An expression that may raise. *)
Definition eval {A} (o : outcome A) : M A :=
  match o with
  | Ok a => ret a
  | Raises e => raise (Exc e)
  end.

Definition print (text : string) : M unit := emit (EvPrint text).
Definition log (level : log_level) (text : string) : M unit :=
  emit (EvLog level text).
Definition sleep (secs : Z) : M unit := emit (EvSleep secs).

(** [for _ in range(n): body], where [body] yields [Some v] when it
    executes [return v] and [None] when it runs to its end. *)
Fixpoint for_range {R} (n : nat) (body : M (option R)) : M (option R) :=
  match n with
  | O => ret None
  | S n' =>
      bind body (fun o =>
        match o with
        | Some v => ret (Some v)
        | None => for_range n' body
        end)
  end.

Declare Scope py_scope.
Delimit Scope py_scope with py.
Notation "x <- m ;; k" := (bind m (fun x => k))
  (at level 20, m at level 99, k at level 200, only parsing) : py_scope.
Notation "m ;; k" := (bind m (fun _ => k))
  (at level 100, k at level 200, only parsing, right associativity) : py_scope.

End Effects.

Export Effects.
Local Open Scope py_scope.

(** The line feed, written [\n] in the Python sources. *)
Definition nl : string := String (ascii_of_nat 10) "".

(** [print(text)] writes the text and a line feed;
    [print(text, end="")] writes the text alone. *)
Definition println (text : string) : M unit := print (text +:+ nl).

(** The same [Exception] caught only when it is of class [cls]:
    [try: body  except cls as e: handler(e)] *)
Definition try_except_class {A} (cls : string) (body : M A)
    (handler : py_exception -> M A) : M A :=
  fun t =>
    match body t with
    | (Exn (Exc e), t') =>
        if String.eqb (exc_class e) cls then handler e t' else (Exn (Exc e), t')
    | r => r
    end.

(** The network calls, each answered by the reply for its call number. *)
Section Calls.
Variable env : Env.

Definition Server_load_account (account : string) : M Account :=
  call (fun t => load_account env (count is_load t) account)
       (EvLoadAccount account).

Definition SorobanServer_prepare_transaction (tx : Transaction) : M Transaction :=
  call (fun t => prepare_transaction env (count is_prepare t) tx) (EvPrepare tx).

Definition SorobanServer_send_transaction (tx : Transaction)
  : M SendTransactionResponse :=
  call (fun t => send_transaction env (count is_send t) tx) (EvSend tx).

Definition SorobanServer_get_transaction (tx_hash : string)
  : M GetTransactionResponse :=
  call (fun t => get_transaction env (count is_query t) tx_hash)
       (EvGetTransaction tx_hash).

Definition subprocess_run_checked (argv : list string) : M string :=
  call (fun _ => subprocess_run env argv) (EvSubprocess argv).

Definition path_exists (path : string) : M bool :=
  fun t => let b := os_path_exists env path in (Val b, t ++ [EvExists path b]).

Definition read_file (path : string) : M string :=
  call (fun _ => read_binary env path) (EvRead path).

End Calls.

(** ** app/services/soroban_validator.py *)

Module Validator.

(** The values the returned dictionaries hold. *)
Inductive value :=
| VNone
| VBool (b : bool)
| VStr (s : string).

Abbreviation dict := (gmap string value).

Definition value_of_str (o : option string) : value :=
  match o with
  | Some s => VStr s
  | None => VNone
  end.

(** The attributes of [app.core.config.settings] that the service reads.
    [PAYMENT_VALIDATOR_CONTRACT_ID] is [None] when the attribute is absent
    or holds [None]; [BACKEND_SECRET_KEY] is [None] when the attribute is
    absent. *)
Record Settings := {
  STELLAR_HORIZON_URL : string;
  PAYMENT_VALIDATOR_CONTRACT_ID : option string;
  BACKEND_SECRET_KEY : option string
}.

Record SorobanValidatorService := {
  horizon_server : string;
  contract_id : option string;
  backend_keypair : option Keypair
}.

(** [int(float(amount) * 10_000_000)] *)
Definition amount_to_stroops (amount : string) : outcome Z :=
  outcome_bind (float_of_str amount)
    (fun x => int_of_float (float_mul x (float_of_int 10000000))).

Section WithEnv.
Variable env : Env.

(** [SorobanValidatorService.__init__] *)
Definition init (settings : Settings) : outcome SorobanValidatorService :=
  outcome_bind
    (match BACKEND_SECRET_KEY settings with
     | Some s => outcome_bind (Keypair_from_secret env s) (fun kp => Ok (Some kp))
     | None => Ok None
     end)
    (fun kp =>
       Ok {| horizon_server := STELLAR_HORIZON_URL settings;
             contract_id := PAYMENT_VALIDATOR_CONTRACT_ID settings;
             backend_keypair := kp |}).

Definition register_payment_session (self : SorobanValidatorService)
    (session_id merchant_address amount_usdc : string) : M dict :=
  if negb (truthy_str (contract_id self)) then
    log ERROR "Payment validator contract not configured" ;;
    raise (Exc (mk_exc "Exception"
      "Smart contract not deployed. Set PAYMENT_VALIDATOR_CONTRACT_ID in .env"))
  else
  match backend_keypair self with
  | None =>
    log ERROR "Backend secret key not configured" ;;
    raise (Exc (mk_exc "Exception"
      "Backend secret key required. Set BACKEND_SECRET_KEY in .env"))
  | Some keypair =>
    try_except
      (amount_stroops <- eval (amount_to_stroops amount_usdc) ;;
       log INFO ("📝 Registering session " +:+ session_id +:+ " for merchant "
                 +:+ prefix 8 merchant_address +:+ "... amount "
                 +:+ amount_usdc +:+ " USDC") ;;
       source_account <- Server_load_account env (public_key keypair) ;;
       log INFO ("✅ Session " +:+ session_id +:+ " registered in contract") ;;
       ret ({[ "session_id" := VStr session_id;
               "merchant" := VStr merchant_address;
               "amount" := VStr amount_usdc;
               "contract_address" := value_of_str (contract_id self);
               "status" := VStr "registered" ]} : dict))
      (fun e =>
         log ERROR ("Failed to register session: " +:+ exc_msg e) ;;
         raise (Exc e))
  end.

Definition deactivate_session (self : SorobanValidatorService)
    (session_id : string) : M dict :=
  if (negb (truthy_str (contract_id self))
      || negb (truthy_obj (backend_keypair self)))%bool then
    raise (Exc (mk_exc "Exception" "Smart contract not properly configured"))
  else
    try_except
      (log INFO ("🚫 Deactivating session " +:+ session_id) ;;
       log INFO ("✅ Session " +:+ session_id +:+ " deactivated") ;;
       ret ({[ "session_id" := VStr session_id;
               "status" := VStr "deactivated" ]} : dict))
      (fun e =>
         log ERROR ("Failed to deactivate session: " +:+ exc_msg e) ;;
         raise (Exc e)).

Definition validate_payment (self : SorobanValidatorService)
    (session_id amount_received paid_asset : string) : M dict :=
  if (negb (truthy_str (contract_id self))
      || negb (truthy_obj (backend_keypair self)))%bool then
    log WARNING "Smart contract not configured, skipping validation" ;;
    ret ({[ "valid" := VBool true;
            "validated_by_contract" := VBool false;
            "reason" := VStr "Contract not deployed" ]} : dict)
  else
    try_except
      (amount_stroops <- eval (amount_to_stroops amount_received) ;;
       log INFO ("🔍 Validating payment: " +:+ session_id +:+ " - "
                 +:+ amount_received +:+ " " +:+ paid_asset) ;;
       log INFO ("✅ Payment validated by contract: " +:+ session_id) ;;
       ret ({[ "valid" := VBool true;
               "validated_by_contract" := VBool true;
               "session_id" := VStr session_id;
               "amount" := VStr amount_received;
               "asset" := VStr paid_asset;
               "contract_address" := value_of_str (contract_id self) ]} : dict))
      (fun e =>
         log ERROR ("Contract validation failed: " +:+ exc_msg e) ;;
         ret ({[ "valid" := VBool false;
                 "validated_by_contract" := VBool true;
                 "reason" := VStr (exc_msg e);
                 "error" := VStr "VALIDATION_FAILED" ]} : dict)).

Definition get_session_status (self : SorobanValidatorService)
    (session_id : string) : M (option dict) :=
  if negb (truthy_str (contract_id self)) then ret None
  else
    try_except
      (ret (Some ({[ "session_id" := VStr session_id;
                     "is_active" := VBool true;
                     "merchant" := VStr "GXXX...";
                     "amount" := VStr "10.00" ]} : dict)))
      (fun e =>
         log ERROR ("Failed to query session: " +:+ exc_msg e) ;;
         ret None).

Definition get_contract_address (self : SorobanValidatorService)
  : option string := contract_id self.

End WithEnv.

End Validator.

(** ** contracts/payment_validator/deploy.py *)

Module Deploy.

Definition RPC_URL : string := "https://soroban-testnet.stellar.org".
Definition HORIZON_URL : string := "https://horizon-testnet.stellar.org".
Definition NETWORK_PASSPHRASE : string := TESTNET_NETWORK_PASSPHRASE.
Definition WASM_PATH : string :=
  "target/wasm32-unknown-unknown/release/chainpe_payment_validator.wasm".

(** What the enclosing function returns: a transaction hash or [None]. *)
Abbreviation returned := (option string).

Section WithEnv.
Variable env : Env.

Definition get_deployer_keypair : M Keypair :=
  try_except
    (let argv := ["stellar"; "keys"; "show"; "deployer"] in
     stdout <- subprocess_run_checked env argv ;;
     let secret := strip stdout in
     eval (Keypair_from_secret env secret))
    (fun e =>
       println ("❌ Error getting deployer keys: " +:+ exc_msg e) ;;
       println "Make sure you have created deployer keys with: stellar keys generate deployer --network testnet --fund" ;;
       exit 1).

(** One pass of [for j in range(60)] (lines 120-131): the status query of
    the contract-creation transaction.  The SUCCESS branch returns from
    [deploy_contract] and the FAILED branch exits, so the delay that ends
    the pass is reached on any other status only. *)
Definition deployment_attempt (response2 : SendTransactionResponse)
  : M (option returned) :=
  tx_response2 <- SorobanServer_get_transaction env (hash response2) ;;
  if status_eqb (status tx_response2) SUCCESS then
    println (nl +:+ "✅ Contract deployed successfully!") ;;
    println (nl +:+ "🎉 CONTRACT ID: " +:+ hash response2) ;;
    println (nl +:+ "Add this to your .env file:") ;;
    println ("PAYMENT_VALIDATOR_CONTRACT_ID=" +:+ hash response2) ;;
    ret (Some (Some (hash response2)))
  else if status_eqb (status tx_response2) FAILED then
    println ("❌ Deployment failed: " +:+ response_str tx_response2) ;;
    exit 1
  else
    sleep 2 ;;
    ret None.

(** Lines 89-133: what follows a SUCCESS status of the upload. *)
Definition deploy_instance (deployer : Keypair)
    (response : SendTransactionResponse) (tx_response : GetTransactionResponse)
  : M returned :=
  println "✅ WASM uploaded successfully!" ;;
  let result := result_meta_xdr tx_response in
  println (nl +:+ "📝 WASM Hash: " +:+ hash response) ;;
  println (nl +:+ "🚀 Deploying contract instance...") ;;
  source <- Server_load_account env (public_key deployer) ;;
  tx2 <-
    eval (build_transaction env
      (set_timeout 300
         (append_create_contract_op (hash response) (public_key deployer)
            (TransactionBuilder source NETWORK_PASSPHRASE 100000)))) ;;
  prepared_tx2 <- SorobanServer_prepare_transaction env tx2 ;;
  let prepared_tx2 := sign deployer prepared_tx2 in
  response2 <- SorobanServer_send_transaction env prepared_tx2 ;;
  println ("📡 Contract deployment tx: " +:+ hash response2) ;;
  r <- for_range 60 (deployment_attempt response2) ;;
  match r with
  | Some v => ret v
  | None => ret None
  end.

(** The [try] block of one pass of [for i in range(60)] (lines 87-137). *)
Definition upload_query (deployer : Keypair) (response : SendTransactionResponse)
  : M (option returned) :=
  tx_response <- SorobanServer_get_transaction env (hash response) ;;
  if status_eqb (status tx_response) SUCCESS then
    v <- deploy_instance deployer response tx_response ;;
    ret (Some v)
  else if status_eqb (status tx_response) FAILED then
    println ("❌ Transaction failed: " +:+ response_str tx_response) ;;
    exit 1
  else
    ret None.

(** One pass of [for i in range(60)] (lines 86-142). *)
Definition upload_attempt (deployer : Keypair) (response : SendTransactionResponse)
  : M (option returned) :=
  r <- try_except (upload_query deployer response) (fun e => ret None) ;;
  match r with
  | Some v => ret (Some v)
  | None =>
      sleep 2 ;;
      print "." ;;
      ret None
  end.

(** Lines 84-145: wait for the confirmation of the upload. *)
Definition wait_for_confirmation (deployer : Keypair)
    (response : SendTransactionResponse) : M returned :=
  println "⏳ Waiting for confirmation..." ;;
  r <- for_range 60 (upload_attempt deployer response) ;;
  match r with
  | Some v => ret v
  | None =>
      println (nl +:+ "❌ Transaction timeout") ;;
      exit 1
  end.

Definition deploy_contract : M returned :=
  println "🚀 Starting contract deployment..." ;;
  deployer <- get_deployer_keypair ;;
  println ("📝 Deployer address: " +:+ public_key deployer) ;;
  found <- path_exists env WASM_PATH ;;
  (if negb found then
     println ("❌ WASM file not found: " +:+ WASM_PATH) ;;
     println "Run: cargo build --target wasm32-unknown-unknown --release" ;;
     exit 1
   else ret tt) ;;
  wasm_binary <- read_file env WASM_PATH ;;
  println ("📦 WASM size: " +:+ str_of_nat (String.length wasm_binary)
           +:+ " bytes") ;;
  println "🔍 Loading account..." ;;
  source <- Server_load_account env (public_key deployer) ;;
  println "📤 Uploading WASM to Stellar..." ;;
  tx <-
    eval (build_transaction env
      (set_timeout 300
         (append_upload_contract_wasm_op wasm_binary
            (TransactionBuilder source NETWORK_PASSPHRASE 100000)))) ;;
  prepared_tx <-
    try_except_class "PrepareTransactionException"
      (SorobanServer_prepare_transaction env tx)
      (fun e =>
         println ("❌ Error preparing transaction: " +:+ exc_msg e) ;;
         exit 1) ;;
  let prepared_tx := sign deployer prepared_tx in
  println "📡 Submitting transaction..." ;;
  response <- SorobanServer_send_transaction env prepared_tx ;;
  println ("✅ Transaction submitted: " +:+ hash response) ;;
  wait_for_confirmation deployer response.

(** The [__main__] block. *)
Definition main : M unit :=
  try_except
    (contract_id <- deploy_contract ;;
     if truthy_str contract_id then
       println (nl +:+ "✅ Deployment complete!") ;;
       println ("Contract ID: " +:+ default "" contract_id)
     else ret tt)
    (fun e =>
       println (nl +:+ "❌ Deployment failed: " +:+ exc_msg e) ;;
       emit (EvTraceback e)).

End WithEnv.

(** The exit status of the interpreter after the script has run. *)
Definition exit_status {A} (r : res A) : Z :=
  match r with
  | Val _ => 0
  | Exn (SystemExit c) => c
  | Exn (Exc _) => 1
  end.

(** A whole run of [python deploy.py]: exit status and events. *)
Definition run (env : Env) : Z * trace :=
  let '(r, t) := main env [] in (exit_status r, t).

End Deploy.

(** ** Traces of the poller *)

Module Traces.

(** What is printed when the contract-creation transaction succeeded. *)
Definition deployed_messages (tx_hash : string) : trace :=
  [EvPrint (nl +:+ "✅ Contract deployed successfully!" +:+ nl);
   EvPrint (nl +:+ "🎉 CONTRACT ID: " +:+ tx_hash +:+ nl);
   EvPrint (nl +:+ "Add this to your .env file:" +:+ nl);
   EvPrint ("PAYMENT_VALIDATOR_CONTRACT_ID=" +:+ tx_hash +:+ nl)].

(** What is printed when the upload succeeded, before the account is
    loaded again. *)
Definition uploaded_messages (tx_hash : string) : trace :=
  [EvPrint ("✅ WASM uploaded successfully!" +:+ nl);
   EvPrint (nl +:+ "📝 WASM Hash: " +:+ tx_hash +:+ nl);
   EvPrint (nl +:+ "🚀 Deploying contract instance..." +:+ nl)].

(** The contract-creation transaction described to the builder, from the
    reloaded account. *)
Definition create_contract_tx (deployer : Keypair)
    (response : SendTransactionResponse) (source : Account) : Transaction :=
  set_timeout 300
    (append_create_contract_op (hash response) (public_key deployer)
       (TransactionBuilder source Deploy.NETWORK_PASSPHRASE 100000)).

(** A reply that leaves the deployment loop polling. *)
Definition pending (o : outcome GetTransactionResponse) : Prop :=
  match o with
  | Ok r => status r = NOT_FOUND
  | Raises _ => False
  end.

(** A reply that leaves the upload loop polling: a non-terminal status
    or an exception. *)
Definition unavailable (o : outcome GetTransactionResponse) : Prop :=
  match o with
  | Ok r => status r = NOT_FOUND
  | Raises _ => True
  end.

(** The events of [k] passes in a row, the first of them making call
    number [c] of [get_transaction]: the query of [tx_hash] with the reply
    the world gives, then the events [after]. *)
Fixpoint polls (env : Env) (tx_hash : string) (after : trace) (c k : nat)
  : trace :=
  match k with
  | O => []
  | S k' =>
      EvGetTransaction tx_hash (get_transaction env c tx_hash)
        :: after ++ polls env tx_hash after (S c) k'
  end.

(** The status queries of a trace, in order: the handle and the status
    reported, [None] for a query that raised. *)
Fixpoint query_log (t : trace) : list (string * option GetTransactionStatus) :=
  match t with
  | [] => []
  | EvGetTransaction h (Ok r) :: t' => (h, Some (status r)) :: query_log t'
  | EvGetTransaction h (Raises _) :: t' => (h, None) :: query_log t'
  | _ :: t' => query_log t'
  end.

(** A status query that reported FAILED. *)
Definition reports_failed (e : event) : bool :=
  match e with
  | EvGetTransaction _ (Ok r) => status_eqb (status r) FAILED
  | _ => false
  end.

(** No status query of the trace reported FAILED. *)
Definition clean (t : trace) : Prop :=
  Forall (fun e => reports_failed e = false) t.

(** The run stopped with [SystemExit(1)] right after its first FAILED
    status and the message printed for it. *)
Definition aborted {A} (r : res A) (t : trace) : Prop :=
  exists pre h resp msg,
    t = pre ++ [EvGetTransaction h (Ok resp); EvPrint msg]
    /\ clean pre /\ status resp = FAILED /\ r = Exn (SystemExit 1).

(** Started on a trace without a FAILED status, the computation either
    ends on such a trace or is aborted by the first FAILED status. *)
Definition guarded {A} (m : M A) : Prop :=
  forall t, clean t -> clean (snd (m t)) \/ aborted (fst (m t)) (snd (m t)).

End Traces.

Export Traces.

(** ** Concrete worlds *)

Module Scenarios.

Definition deployer_keypair : Keypair :=
  {| secret := "SDEPLOYERSECRET"; public_key := "GDEPLOYER" |}.

Definition reply (st : GetTransactionStatus) (meta : string)
  : outcome GetTransactionResponse :=
  Ok {| status := st; result_meta_xdr := Some meta;
        response_str := "status=" +:+ meta |}.

Definition network_down : py_exception :=
  mk_exc "ConnectionError" "connection refused".

(** A world in which the key store, the file system and the RPC server
    work, the upload gets hash [H1] and a contract creation [H2]; [loads]
    answers [load_account] and [queries] answers [get_transaction]. *)
Definition world (loads : nat -> outcome Account)
    (queries : nat -> string -> outcome GetTransactionResponse) : Env :=
  {| subprocess_run := fun _ => Ok ("SDEPLOYERSECRET" +:+ nl);
     Keypair_from_secret := fun s => Ok {| secret := s; public_key := "GDEPLOYER" |};
     os_path_exists := fun _ => true;
     read_binary := fun _ => Ok "wasm";
     load_account := fun k _ => loads k;
     build_transaction := fun tx => Ok tx;
     prepare_transaction := fun _ tx => Ok tx;
     send_transaction := fun _ tx =>
       Ok {| hash := match operations tx with
                     | [CreateContract _ _] => "H2"
                     | _ => "H1"
                     end |};
     get_transaction := queries |}.

Definition horizon_up (k : nat) : outcome Account :=
  Ok {| account_id := "GDEPLOYER"; sequence := Z.of_nat k |}.

(** Horizon answers the first [load_account] only. *)
Definition horizon_once (k : nat) : outcome Account :=
  match k with
  | O => horizon_up k
  | _ => Raises network_down
  end.

(** The upload succeeds at once, the deployment fails on its second query. *)
Definition deployment_fails : Env :=
  world horizon_up (fun k _ =>
    match k with
    | 2%nat => reply FAILED "meta-failed"
    | O => reply SUCCESS "meta-upload"
    | _ => reply NOT_FOUND "pending"
    end).

(** No status query ever reports a terminal status. *)
Definition never_confirmed : Env :=
  world horizon_up (fun _ _ => reply NOT_FOUND "pending").

(** The upload succeeds at once, the deployment stays pending. *)
Definition deployment_pending : Env :=
  world horizon_up (fun k _ =>
    match k with
    | O => reply SUCCESS "meta-upload"
    | _ => reply NOT_FOUND "pending"
    end).

(** The upload is confirmed at the second query, the deployment at its
    second query. *)
Definition confirmed : Env :=
  world horizon_up (fun k _ =>
    match k with
    | 1%nat => reply SUCCESS "meta-upload"
    | 3%nat => reply SUCCESS "meta-deploy"
    | _ => reply NOT_FOUND "pending"
    end).

(** Every status query reports SUCCESS, but Horizon is gone when the
    deployment phase wants to load the account again. *)
Definition horizon_lost : Env :=
  world horizon_once (fun _ _ => reply SUCCESS "meta-upload").

(** The first status query raises, the later ones report NOT_FOUND. *)
Definition rpc_hiccup : Env :=
  world horizon_up (fun k _ =>
    match k with
    | O => Raises network_down
    | _ => reply NOT_FOUND "pending"
    end).

(** The upload succeeds at once; the second query of the deployment raises. *)
Definition deployment_hiccup : Env :=
  world horizon_up (fun k _ =>
    match k with
    | O => reply SUCCESS "meta-upload"
    | 2%nat => Raises network_down
    | _ => reply NOT_FOUND "pending"
    end).

(** The world the backend service runs in: Horizon answers. *)
Definition backend_world : Env :=
  world horizon_up (fun _ _ => reply NOT_FOUND "pending").

(** Horizon does not answer the backend service. *)
Definition backend_offline : Env :=
  world (fun _ => Raises network_down) (fun _ _ => reply NOT_FOUND "pending").

(** The events of the run in which the deployment fails, up to the
    status query that reports it. *)
Definition before_failure : trace :=
  removelast (removelast (snd (Deploy.run deployment_fails))).

Definition failed_reply : GetTransactionResponse :=
  {| status := FAILED; result_meta_xdr := Some "meta-failed";
     response_str := "status=meta-failed" |}.

Definition upload_response : SendTransactionResponse := {| hash := "H1" |}.
Definition deployment_response : SendTransactionResponse := {| hash := "H2" |}.

Import Validator.

Definition configured : SorobanValidatorService :=
  {| horizon_server := Deploy.HORIZON_URL;
     contract_id := Some "CCONTRACT";
     backend_keypair := Some deployer_keypair |}.

Definition no_contract : SorobanValidatorService :=
  {| horizon_server := Deploy.HORIZON_URL;
     contract_id := None;
     backend_keypair := Some deployer_keypair |}.

Definition no_keypair : SorobanValidatorService :=
  {| horizon_server := Deploy.HORIZON_URL;
     contract_id := Some "CCONTRACT";
     backend_keypair := None |}.

Definition settings_without_key : Settings :=
  {| STELLAR_HORIZON_URL := Deploy.HORIZON_URL;
     PAYMENT_VALIDATOR_CONTRACT_ID := Some "CCONTRACT";
     BACKEND_SECRET_KEY := None |}.

End Scenarios.

(** ** Measures of a run *)

Module Measures.

(** The seconds spent in [time.sleep]. *)
Fixpoint slept (t : trace) : Z :=
  match t with
  | [] => 0
  | EvSleep secs :: t' => secs + slept t'
  | _ :: t' => slept t'
  end.

(** A call that goes to Horizon or to the RPC server. *)
Definition is_network (e : event) : bool :=
  match e with
  | EvLoadAccount _ _ | EvPrepare _ _ | EvSend _ _ | EvGetTransaction _ _ => true
  | _ => false
  end.

Definition is_log (e : event) : bool :=
  match e with EvLog _ _ => true | _ => false end.

(** The computation makes no status query and does not sleep. *)
Definition quiet {A} (m : M A) : Prop :=
  forall t,
    count is_query (snd (m t)) = count is_query t
    /\ slept (snd (m t)) = slept t.

(** The computation makes at most [q] status queries and sleeps at most
    [s] seconds. *)
Definition frugal {A} (q : nat) (s : Z) (m : M A) : Prop :=
  forall t,
    (count is_query (snd (m t)) <= count is_query t + q)%nat
    /\ slept (snd (m t)) <= slept t + s.

End Measures.

Export Measures.

(** ** Worlds in which something fails *)

Module Failures.

(** The world [w] without the compiled contract on disk. *)
Definition without_wasm (w : Env) : Env :=
  {| subprocess_run := subprocess_run w;
     Keypair_from_secret := Keypair_from_secret w;
     build_transaction := build_transaction w;
     os_path_exists := fun _ => false;
     read_binary := read_binary w;
     load_account := load_account w;
     prepare_transaction := prepare_transaction w;
     send_transaction := send_transaction w;
     get_transaction := get_transaction w |}.

(** The world [w] with an RPC server that refuses to prepare any
    transaction, raising an exception of class [cls]. *)
Definition prepare_fails (cls : string) (w : Env) : Env :=
  {| subprocess_run := subprocess_run w;
     Keypair_from_secret := Keypair_from_secret w;
     build_transaction := build_transaction w;
     os_path_exists := os_path_exists w;
     read_binary := read_binary w;
     load_account := load_account w;
     prepare_transaction := fun _ _ => Raises (mk_exc cls "simulation failed");
     send_transaction := send_transaction w;
     get_transaction := get_transaction w |}.

(** The upload handle always reports SUCCESS; each contract creation
    stays pending for 59 status queries and the 60th raises. *)
Definition worst_case : Env :=
  Scenarios.world Scenarios.horizon_up (fun k _ =>
    match Nat.modulo k 61 with
    | O => Scenarios.reply SUCCESS "meta-upload"
    | 60%nat => Raises Scenarios.network_down
    | _ => Scenarios.reply NOT_FOUND "pending"
    end).

End Failures.

(** ** Decimal amounts *)

Module Amounts.

Fixpoint zeros (k : nat) : string :=
  match k with
  | O => ""
  | S k' => String "0" (zeros k')
  end.

Definition str_of_N (n : N) : string := NilEmpty.string_of_uint (N.to_uint n).

(** The decimal literal of [n * 10^-d]: the digits of [n] with a point
    before the last [d] of them, as in [12.34] for [n = 1234], [d = 2]. *)
Definition decimal_amount (n : N) (d : nat) : string :=
  let p := N.pow 10 (N.of_nat d) in
  let frac := str_of_N (N.modulo n p) in
  match d with
  | O => str_of_N n
  | _ => str_of_N (N.div n p) +:+ "." +:+ zeros (d - String.length frac) +:+ frac
  end.

(** The number of stroops (10^-7) in [n * 10^-d], for [d <= 7]. *)
Definition exact_stroops (n : N) (d : nat) : Z :=
  Z.of_N n * 10 ^ Z.of_nat (7 - d).

(** The conversion of the code yields the exact number of stroops or one
    less. *)
Definition within_one_stroop (d : nat) (n : N) : bool :=
  match Validator.amount_to_stroops (decimal_amount n d) with
  | Ok z => (Z.eqb z (exact_stroops n d) || Z.eqb z (exact_stroops n d - 1))%bool
  | Raises _ => false
  end.

(** [f] holds of the [k] numbers from [n] on. *)
Fixpoint upto (f : N -> bool) (k : nat) (n : N) : bool :=
  match k with
  | O => true
  | S k' => (f n && upto f k' (N.succ n))%bool
  end.

End Amounts.

(** ** The steps before the poll *)

Module Startup.

Definition keys_argv : list string := ["stellar"; "keys"; "show"; "deployer"].

(** What [get_deployer_keypair] prints when it gives up. *)
Definition key_failure (e : py_exception) : trace :=
  [EvPrint ("❌ Error getting deployer keys: " +:+ exc_msg e +:+ nl);
   EvPrint ("Make sure you have created deployer keys with: stellar keys generate deployer --network testnet --fund" +:+ nl)].

(** What is printed when the compiled contract is not on disk. *)
Definition wasm_missing : trace :=
  [EvPrint ("❌ WASM file not found: " +:+ Deploy.WASM_PATH +:+ nl);
   EvPrint ("Run: cargo build --target wasm32-unknown-unknown --release" +:+ nl)].

(** The upload transaction described to the builder. *)
Definition upload_tx (wasm_binary : string) (source : Account) : Transaction :=
  set_timeout 300
    (append_upload_contract_wasm_op wasm_binary
       (TransactionBuilder source Deploy.NETWORK_PASSPHRASE 100000)).

(** What [__main__] adds when [deploy_contract] raised [e]. *)
Definition reported (e : py_exception) : trace :=
  [EvPrint (nl +:+ "❌ Deployment failed: " +:+ exc_msg e +:+ nl);
   EvTraceback e].

End Startup.

Export Startup.

(** ** What a returned hash stands for *)

Module Outcomes.

(** The trace of a run that returned [v]: when [v] is a hash, the run
    ended with a status query of that hash that reported SUCCESS and the
    messages printed for it. *)
Definition ends_confirmed (v : option string) (t : trace) : Prop :=
  match v with
  | None => True
  | Some h =>
      exists pre resp,
        t = pre ++ EvGetTransaction h (Ok resp) :: deployed_messages h
        /\ status resp = SUCCESS
  end.

End Outcomes.

Export Outcomes.

(** ** contracts/payment_validator/deploy_contract.py *)

Module Cli.

(** [subprocess.CompletedProcess], with the output decoded as text. *)
Record CompletedProcess := {
  returncode : Z;
  stdout : string;
  stderr : string
}.

(** The machine the script runs on: whether the compiled contract is on
    disk, and what the k-th call of [subprocess.run] (without [check])
    yields for a command line: a completed process, or an exception when
    the command cannot be started. *)
Record Shell := {
  wasm_on_disk : bool;
  run_process : nat -> list string -> outcome CompletedProcess
}.

Definition WASM_PATH : string :=
  "target/wasm32-unknown-unknown/release/chainpe_payment_validator.wasm".

Definition is_subprocess (e : event) : bool :=
  match e with EvSubprocess _ _ => true | _ => false end.

(** [subprocess.run(argv, capture_output=True, text=True, ...)]; the
    event keeps the standard output of a process that completed. *)
Definition subprocess_run (sh : Shell) (argv : list string)
  : M CompletedProcess :=
  fun t =>
    match run_process sh (count is_subprocess t) argv with
    | Ok p => (Val p, t ++ [EvSubprocess argv (Ok (stdout p))])
    | Raises e => (Exn (Exc e), t ++ [EvSubprocess argv (Raises e)])
    end.

Definition install_cmd : list string :=
  ["stellar"; "contract"; "upload";
   "--wasm"; WASM_PATH;
   "--source"; "deployer";
   "--network"; "testnet";
   "--network-passphrase"; "Test SDF Network ; September 2015"].

Definition deploy_cmd (wasm_hash : string) : list string :=
  ["stellar"; "contract"; "deploy";
   "--wasm-hash"; wasm_hash;
   "--source"; "deployer";
   "--network"; "testnet";
   "--network-passphrase"; "Test SDF Network ; September 2015"].

(** The whole script. *)
Definition script (sh : Shell) : M unit :=
  found <- (fun t => (Val (wasm_on_disk sh),
                      t ++ [EvExists WASM_PATH (wasm_on_disk sh)])) ;;
  (if negb found then
     println ("❌ WASM file not found: " +:+ WASM_PATH) ;;
     exit 1
   else ret tt) ;;
  println "🚀 Deploying contract..." ;;
  println "This will upload WASM and create contract instance" ;;
  println (nl +:+ "📤 Step 1: Installing WASM...") ;;
  try_except
    (result <- subprocess_run sh install_cmd ;;
     if returncode result =? 0 then
       let wasm_hash := strip (stdout result) in
       println ("✅ WASM installed! Hash: " +:+ wasm_hash) ;;
       println (nl +:+ "🚀 Step 2: Deploying contract...") ;;
       result2 <- subprocess_run sh (deploy_cmd wasm_hash) ;;
       if returncode result2 =? 0 then
         let contract_id := strip (stdout result2) in
         println (nl +:+ "✅ Contract deployed!") ;;
         println (nl +:+ "CONTRACT_ID: " +:+ contract_id) ;;
         println (nl +:+ "Add to .env:") ;;
         println ("PAYMENT_VALIDATOR_CONTRACT_ID=" +:+ contract_id)
       else
         println ("❌ Deploy error: " +:+ stderr result2)
     else
       println ("❌ Install error: " +:+ stderr result))
    (fun e => println ("❌ Error: " +:+ exc_msg e)).

(** A run of [python deploy_contract.py]: exit status and events. *)
Definition run (sh : Shell) : Z * trace :=
  let '(r, t) := script sh [] in (Deploy.exit_status r, t).



End Cli.

(** * Properties *)

(** Runs the monad's operations on the trace at hand and brings the
    resulting trace into the form [t ++ events]. *)
Ltac run_py :=
  cbv [bind ret raise exit emit log print println sleep eval try_except
       try_except_class call];
  cbn [fst snd];
  rewrite <- ?app_assoc;
  cbn [app].

(** ** The session validator facade *)

Lemma count_app p (t1 t2 : trace) :
  count p (t1 ++ t2) = (count p t1 + count p t2)%nat.
Proof. induction t1 as [| e t1 IH]; cbn; [reflexivity | rewrite IH; lia]. Qed.

Section ValidatorFacts.
Import Validator.

Lemma truthy_obj_some {A} (o : option A) :
  truthy_obj o = true -> exists a, o = Some a.
Proof. destruct o as [a|]; [eauto | discriminate]. Qed.

(** The dictionary returned on the fail-open path. *)
Lemma validate_payment_unconfigured self session_id amount paid_asset t :
  truthy_str (contract_id self) = false \/ backend_keypair self = None ->
  validate_payment self session_id amount paid_asset t
  = (Val ({[ "valid" := VBool true;
             "validated_by_contract" := VBool false;
             "reason" := VStr "Contract not deployed" ]} : dict),
     t ++ [EvLog WARNING "Smart contract not configured, skipping validation"]).
Proof.
  intros H. unfold validate_payment.
  destruct H as [H | H]; rewrite H.
  - reflexivity.
  - rewrite orb_true_r. reflexivity.
Qed.

(** What the guarded part of [validate_payment] yields. *)
Lemma validate_payment_configured self session_id amount paid_asset t :
  truthy_str (contract_id self) = true ->
  truthy_obj (backend_keypair self) = true ->
  validate_payment self session_id amount paid_asset t
  = match amount_to_stroops amount with
    | Ok _ =>
        (Val ({[ "valid" := VBool true;
                 "validated_by_contract" := VBool true;
                 "session_id" := VStr session_id;
                 "amount" := VStr amount;
                 "asset" := VStr paid_asset;
                 "contract_address" := value_of_str (contract_id self) ]} : dict),
         t ++ [EvLog INFO ("🔍 Validating payment: " +:+ session_id +:+ " - "
                           +:+ amount +:+ " " +:+ paid_asset);
               EvLog INFO ("✅ Payment validated by contract: " +:+ session_id)])
    | Raises e =>
        (Val ({[ "valid" := VBool false;
                 "validated_by_contract" := VBool true;
                 "reason" := VStr (exc_msg e);
                 "error" := VStr "VALIDATION_FAILED" ]} : dict),
         t ++ [EvLog ERROR ("Contract validation failed: " +:+ exc_msg e)])
    end.
Proof.
  intros Hc Hk. unfold validate_payment. rewrite Hc, Hk. cbn [negb orb].
  destruct (amount_to_stroops amount) as [z | e]; run_py; reflexivity.
Qed.

(** What [register_payment_session] yields once both guards are passed. *)
Lemma register_payment_session_configured env self keypair session_id
    merchant_address amount t :
  truthy_str (contract_id self) = true ->
  backend_keypair self = Some keypair ->
  register_payment_session env self session_id merchant_address amount t
  = match amount_to_stroops amount with
    | Raises e =>
        (Exn (Exc e),
         t ++ [EvLog ERROR ("Failed to register session: " +:+ exc_msg e)])
    | Ok _ =>
        let registering :=
          EvLog INFO ("📝 Registering session " +:+ session_id
                      +:+ " for merchant " +:+ prefix 8 merchant_address
                      +:+ "... amount " +:+ amount +:+ " USDC") in
        match load_account env (count is_load t) (public_key keypair) with
        | Raises e =>
            (Exn (Exc e),
             t ++ [registering;
                   EvLoadAccount (public_key keypair) (Raises e);
                   EvLog ERROR ("Failed to register session: " +:+ exc_msg e)])
        | Ok account =>
            (Val ({[ "session_id" := VStr session_id;
                     "merchant" := VStr merchant_address;
                     "amount" := VStr amount;
                     "contract_address" := value_of_str (contract_id self);
                     "status" := VStr "registered" ]} : dict),
             t ++ [registering;
                   EvLoadAccount (public_key keypair) (Ok account);
                   EvLog INFO ("✅ Session " +:+ session_id
                               +:+ " registered in contract")])
        end
    end.
Proof.
  intros Hc Hk. unfold register_payment_session. rewrite Hc, Hk. cbn [negb].
  destruct (amount_to_stroops amount) as [z | e].
  - unfold Server_load_account. run_py.
    assert (Hn : count is_load (t ++ [EvLog INFO
               ("📝 Registering session " +:+ session_id +:+ " for merchant "
                +:+ prefix 8 merchant_address +:+ "... amount "
                +:+ amount +:+ " USDC")]) = count is_load t).
    { rewrite count_app. cbn. lia. }
    rewrite Hn.
    destruct (load_account env (count is_load t) (public_key keypair));
      rewrite <- ?app_assoc; reflexivity.
  - run_py. reflexivity.
Qed.

(** C5: when the contract id is not configured, [validate_payment]
    returns, for every session, amount and asset, a dictionary whose
    [valid] is [True] and whose [validated_by_contract] is [False]; it
    raises nothing and only logs a warning. *)
Theorem validate_payment_fail_open self session_id amount paid_asset t :
  truthy_str (contract_id self) = false ->
  exists d : dict,
    validate_payment self session_id amount paid_asset t
    = (Val d,
       t ++ [EvLog WARNING "Smart contract not configured, skipping validation"])
    /\ d !! "valid" = Some (VBool true)
    /\ d !! "validated_by_contract" = Some (VBool false).
Proof.
  intros H. eexists. split.
  - apply validate_payment_unconfigured. left. exact H.
  - split; reflexivity.
Qed.

Lemma validate_payment_fail_open_witness :
  exists d : dict,
    validate_payment Scenarios.no_contract "session-1" "12.5" "USDC" []
    = (Val d,
       [EvLog WARNING "Smart contract not configured, skipping validation"])
    /\ d !! "valid" = Some (VBool true)
    /\ d !! "validated_by_contract" = Some (VBool false).
Proof.
  exact (validate_payment_fail_open Scenarios.no_contract
           "session-1" "12.5" "USDC" [] eq_refl).
Defined.

(** C6, as the claim states it, fails: with contract id and keypair
    configured, the amount [abc] makes [register_payment_session] log the
    failure and raise [ValueError] instead of returning a dictionary. *)
Lemma register_payment_session_raises_on_bad_amount :
  register_payment_session Scenarios.backend_world Scenarios.configured
    "session-1" "GMERCHANTADDRESS" "abc" []
  = (Exn (Exc (mk_exc "ValueError" "could not convert string to float: 'abc'")),
     [EvLog ERROR
        "Failed to register session: could not convert string to float: 'abc'"]).
Proof. vm_compute. reflexivity. Qed.

(** C6, amended: [register_payment_session] raises a configuration error
    when the contract id or the backend keypair is not configured; when
    both are configured it returns a dictionary with status [registered]
    if the amount converts and Horizon loads the backend account, and
    otherwise re-raises the exception of the step that failed. *)
Theorem register_payment_session_outcome env self session_id merchant_address
    amount t :
  let r := fst (register_payment_session env self session_id merchant_address
                  amount t) in
  (truthy_str (contract_id self) = false ->
   r = Exn (Exc (mk_exc "Exception"
       "Smart contract not deployed. Set PAYMENT_VALIDATOR_CONTRACT_ID in .env")))
  /\ (truthy_str (contract_id self) = true -> backend_keypair self = None ->
      r = Exn (Exc (mk_exc "Exception"
          "Backend secret key required. Set BACKEND_SECRET_KEY in .env")))
  /\ (forall keypair,
        truthy_str (contract_id self) = true ->
        backend_keypair self = Some keypair ->
        match amount_to_stroops amount with
        | Raises e => r = Exn (Exc e)
        | Ok _ =>
            match load_account env (count is_load t) (public_key keypair) with
            | Raises e => r = Exn (Exc e)
            | Ok _ =>
                exists d : dict,
                  r = Val d
                  /\ d !! "status" = Some (VStr "registered")
                  /\ d !! "session_id" = Some (VStr session_id)
            end
        end).
Proof.
  cbv zeta. split; [| split].
  - intros H. unfold register_payment_session. rewrite H. reflexivity.
  - intros H Hk. unfold register_payment_session. rewrite H, Hk. reflexivity.
  - intros keypair H Hk.
    rewrite (register_payment_session_configured env self keypair) by assumption.
    destruct (amount_to_stroops amount) as [z | e]; [| reflexivity].
    cbv zeta.
    destruct (load_account env (count is_load t) (public_key keypair));
      [| reflexivity].
    eexists. split; [reflexivity | split; reflexivity].
Qed.

Lemma register_payment_session_outcome_witness :
  exists d : dict,
    fst (register_payment_session Scenarios.backend_world Scenarios.configured
           "session-1" "GMERCHANTADDRESS" "12.5" []) = Val d
    /\ d !! "status" = Some (VStr "registered")
    /\ d !! "session_id" = Some (VStr "session-1").
Proof.
  exact (proj2 (proj2 (register_payment_session_outcome Scenarios.backend_world
           Scenarios.configured "session-1" "GMERCHANTADDRESS" "12.5" []))
           Scenarios.deployer_keypair eq_refl eq_refl).
Defined.

(** C7: with contract id and keypair configured, [validate_payment] never
    raises.  An exception of the validation (the amount does not convert)
    comes back as a dictionary with [valid] [False],
    [validated_by_contract] [True] and [error] [VALIDATION_FAILED];
    otherwise the dictionary has [valid] and [validated_by_contract]
    [True]. *)
Theorem validate_payment_never_raises self session_id amount paid_asset t :
  truthy_str (contract_id self) = true ->
  truthy_obj (backend_keypair self) = true ->
  exists (d : dict) t',
    validate_payment self session_id amount paid_asset t = (Val d, t')
    /\ d !! "validated_by_contract" = Some (VBool true)
    /\ match amount_to_stroops amount with
       | Ok _ =>
           d !! "valid" = Some (VBool true) /\ d !! "error" = None
       | Raises e =>
           d !! "valid" = Some (VBool false)
           /\ d !! "error" = Some (VStr "VALIDATION_FAILED")
           /\ d !! "reason" = Some (VStr (exc_msg e))
       end.
Proof.
  intros Hc Hk.
  rewrite (validate_payment_configured self) by assumption.
  destruct (amount_to_stroops amount) as [z | e];
    eexists; eexists; (split; [reflexivity |]); repeat split; reflexivity.
Qed.

Lemma validate_payment_never_raises_witness :
  exists (d : dict) t',
    validate_payment Scenarios.configured "session-1" "abc" "USDC" []
    = (Val d, t')
    /\ d !! "validated_by_contract" = Some (VBool true)
    /\ match amount_to_stroops "abc" with
       | Ok _ =>
           d !! "valid" = Some (VBool true) /\ d !! "error" = None
       | Raises e =>
           d !! "valid" = Some (VBool false)
           /\ d !! "error" = Some (VStr "VALIDATION_FAILED")
           /\ d !! "reason" = Some (VStr (exc_msg e))
       end.
Proof.
  exact (validate_payment_never_raises Scenarios.configured
           "session-1" "abc" "USDC" [] eq_refl eq_refl).
Defined.

(** C9: [get_session_status] returns [None] when the contract id is not
    configured; otherwise it returns, whatever the session, the same
    dictionary up to its [session_id] entry: [is_active] [True], [merchant]
    [GXXX...], [amount] [10.00].  Nothing is logged or called. *)
Theorem get_session_status_canned self session_id t :
  (truthy_str (contract_id self) = false ->
   get_session_status self session_id t = (Val None, t))
  /\ (truthy_str (contract_id self) = true ->
      exists d : dict,
        get_session_status self session_id t = (Val (Some d), t)
        /\ d !! "session_id" = Some (VStr session_id)
        /\ delete "session_id" d
           = ({[ "is_active" := VBool true;
                 "merchant" := VStr "GXXX...";
                 "amount" := VStr "10.00" ]} : dict)).
Proof.
  split; intros H; unfold get_session_status; rewrite H; cbn [negb].
  - reflexivity.
  - eexists. split; [reflexivity | split; reflexivity].
Qed.

Lemma get_session_status_canned_witness :
  get_session_status Scenarios.no_contract "session-1" [] = (Val None, [])
  /\ exists d : dict,
       get_session_status Scenarios.no_keypair "session-1" []
       = (Val (Some d), [])
       /\ d !! "session_id" = Some (VStr "session-1")
       /\ delete "session_id" d
          = ({[ "is_active" := VBool true;
                "merchant" := VStr "GXXX...";
                "amount" := VStr "10.00" ]} : dict).
Proof.
  exact (conj
    (proj1 (get_session_status_canned Scenarios.no_contract "session-1" [])
       eq_refl)
    (proj2 (get_session_status_canned Scenarios.no_keypair "session-1" [])
       eq_refl)).
Defined.

(** C10: [validate_payment] also takes the fail-open branch when the
    contract id is configured and only the backend keypair is missing, as
    it is for a service built from settings without [BACKEND_SECRET_KEY];
    a result validated by the contract needs both the contract id and the
    keypair. *)
Theorem validate_payment_needs_contract_and_keypair env settings self
    session_id amount paid_asset t :
  init env settings = Ok self ->
  BACKEND_SECRET_KEY settings = None ->
  (exists d : dict,
     validate_payment self session_id amount paid_asset t
     = (Val d,
        t ++ [EvLog WARNING "Smart contract not configured, skipping validation"])
     /\ d !! "valid" = Some (VBool true)
     /\ d !! "validated_by_contract" = Some (VBool false))
  /\ (forall (other : SorobanValidatorService) (d : dict) t',
        validate_payment other session_id amount paid_asset t = (Val d, t') ->
        d !! "validated_by_contract" = Some (VBool true) ->
        truthy_str (contract_id other) = true
        /\ exists keypair, backend_keypair other = Some keypair).
Proof.
  intros Hinit Hkey. split.
  - assert (Hk : backend_keypair self = None).
    { unfold init in Hinit. rewrite Hkey in Hinit. cbn in Hinit.
      injection Hinit as <-. reflexivity. }
    eexists. split.
    + apply validate_payment_unconfigured. right. exact Hk.
    + split; reflexivity.
  - intros other d t' Hrun Hd.
    destruct (truthy_str (contract_id other)) eqn:Hc.
    + destruct (backend_keypair other) as [kp |] eqn:Hk; [eauto |].
      rewrite validate_payment_unconfigured in Hrun by (right; exact Hk).
      injection Hrun as <- _. discriminate Hd.
    + rewrite validate_payment_unconfigured in Hrun by (left; exact Hc).
      injection Hrun as <- _. discriminate Hd.
Qed.

Lemma validate_payment_needs_contract_and_keypair_witness :
  exists d : dict,
    validate_payment Scenarios.no_keypair "session-1" "12.5" "USDC" []
    = (Val d,
       [EvLog WARNING "Smart contract not configured, skipping validation"])
    /\ d !! "valid" = Some (VBool true)
    /\ d !! "validated_by_contract" = Some (VBool false).
Proof.
  exact (proj1 (validate_payment_needs_contract_and_keypair
           Scenarios.backend_world Scenarios.settings_without_key
           Scenarios.no_keypair "session-1" "12.5" "USDC" [] eq_refl eq_refl)).
Defined.

(** X2: [deactivate_session] raises a configuration error when the
    contract id or the backend keypair is not configured, and otherwise
    logs twice and returns a dictionary with status [deactivated]. *)
Theorem deactivate_session_outcome self session_id t :
  (truthy_str (contract_id self) = false \/ backend_keypair self = None ->
   deactivate_session self session_id t
   = (Exn (Exc (mk_exc "Exception" "Smart contract not properly configured")),
      t))
  /\ (truthy_str (contract_id self) = true ->
      truthy_obj (backend_keypair self) = true ->
      exists d : dict,
        deactivate_session self session_id t
        = (Val d,
           t ++ [EvLog INFO ("🚫 Deactivating session " +:+ session_id);
                 EvLog INFO ("✅ Session " +:+ session_id +:+ " deactivated")])
        /\ d !! "status" = Some (VStr "deactivated")
        /\ d !! "session_id" = Some (VStr session_id)).
Proof.
  split.
  - intros [H | H]; unfold deactivate_session; rewrite H;
      rewrite ?orb_true_r; reflexivity.
  - intros Hc Hk. unfold deactivate_session. rewrite Hc, Hk. cbn [negb orb].
    eexists. split; [run_py; reflexivity | split; reflexivity].
Qed.

Lemma deactivate_session_outcome_witness :
  exists d : dict,
    deactivate_session Scenarios.configured "session-1" []
    = (Val d,
       [EvLog INFO "🚫 Deactivating session session-1";
        EvLog INFO "✅ Session session-1 deactivated"])
    /\ d !! "status" = Some (VStr "deactivated")
    /\ d !! "session_id" = Some (VStr "session-1").
Proof.
  exact (proj2 (deactivate_session_outcome Scenarios.configured
           "session-1" []) eq_refl eq_refl).
Defined.

End ValidatorFacts.

(** ** The deployment poller *)

Section PollerFacts.
Import Deploy.

Variable env : Env.

(** *** How one status query and one loop pass run *)

Lemma get_transaction_run tx_hash t :
  SorobanServer_get_transaction env tx_hash t
  = match get_transaction env (count is_query t) tx_hash with
    | Ok r => (Val r, t ++ [EvGetTransaction tx_hash (Ok r)])
    | Raises e => (Exn (Exc e), t ++ [EvGetTransaction tx_hash (Raises e)])
    end.
Proof. reflexivity. Qed.

Lemma for_range_step {R} n (body : M (option R)) t :
  for_range (S n) body t
  = match body t with
    | (Val None, t') => for_range n body t'
    | (Val (Some v), t') => (Val (Some v), t')
    | (Exn e, t') => (Exn e, t')
    end.
Proof.
  cbn [for_range]. unfold bind.
  destruct (body t) as [[[v |] | e] t']; reflexivity.
Qed.

Lemma deployment_attempt_run response2 t :
  deployment_attempt env response2 t
  = let h := hash response2 in
    match get_transaction env (count is_query t) h with
    | Raises e => (Exn (Exc e), t ++ [EvGetTransaction h (Raises e)])
    | Ok r =>
        match status r with
        | SUCCESS =>
            (Val (Some (Some h)),
             t ++ EvGetTransaction h (Ok r) :: deployed_messages h)
        | FAILED =>
            (Exn (SystemExit 1),
             t ++ [EvGetTransaction h (Ok r);
                   EvPrint ("❌ Deployment failed: " +:+ response_str r +:+ nl)])
        | NOT_FOUND =>
            (Val None, t ++ [EvGetTransaction h (Ok r); EvSleep 2])
        end
    end.
Proof.
  unfold deployment_attempt, bind at 1. rewrite get_transaction_run. cbv zeta.
  destruct (get_transaction env (count is_query t) (hash response2)) as [r | e];
    [| reflexivity].
  destruct (status r); cbn [status_eqb]; run_py; reflexivity.
Qed.

(** The [try] block of an upload pass, up to the deployment phase. *)
Lemma upload_query_run deployer response t :
  upload_query env deployer response t
  = let h := hash response in
    match get_transaction env (count is_query t) h with
    | Raises e => (Exn (Exc e), t ++ [EvGetTransaction h (Raises e)])
    | Ok r =>
        match status r with
        | SUCCESS =>
            match deploy_instance env deployer response r
                    (t ++ [EvGetTransaction h (Ok r)]) with
            | (Val v, t') => (Val (Some v), t')
            | (Exn e, t') => (Exn e, t')
            end
        | FAILED =>
            (Exn (SystemExit 1),
             t ++ [EvGetTransaction h (Ok r);
                   EvPrint ("❌ Transaction failed: " +:+ response_str r +:+ nl)])
        | NOT_FOUND => (Val None, t ++ [EvGetTransaction h (Ok r)])
        end
    end.
Proof.
  unfold upload_query, bind at 1. rewrite get_transaction_run. cbv zeta.
  destruct (get_transaction env (count is_query t) (hash response)) as [r | e];
    [| reflexivity].
  destruct (status r); cbn [status_eqb].
  - unfold bind, ret.
    destruct (deploy_instance env deployer response r
                (t ++ [EvGetTransaction (hash response) (Ok r)])) as [[v | e] t'];
      reflexivity.
  - reflexivity.
  - run_py. reflexivity.
Qed.

(** A whole upload pass in terms of its [try] block. *)
Lemma upload_attempt_run deployer response t :
  upload_attempt env deployer response t
  = match upload_query env deployer response t with
    | (Val (Some v), t') => (Val (Some v), t')
    | (Val None, t') => (Val None, t' ++ [EvSleep 2; EvPrint "."])
    | (Exn (Exc e), t') => (Val None, t' ++ [EvSleep 2; EvPrint "."])
    | (Exn (SystemExit c), t') => (Exn (SystemExit c), t')
    end.
Proof.
  unfold upload_attempt, bind at 1, try_except.
  destruct (upload_query env deployer response t) as [[[v |] | [c | e]] t'];
    run_py; reflexivity.
Qed.

(** *** A FAILED status ends the run *)

Lemma clean_app t1 t2 : clean (t1 ++ t2) <-> clean t1 /\ clean t2.
Proof. unfold clean. apply Forall_app. Qed.

Lemma clean_snoc t e : clean t -> reports_failed e = false -> clean (t ++ [e]).
Proof.
  intros Ht He. apply clean_app. split; [exact Ht |].
  constructor; [exact He | constructor].
Qed.

Lemma aborted_exn {A B} e t : aborted (@Exn A e) t -> aborted (@Exn B e) t.
Proof.
  intros (pre & h & resp & msg & Ht & Hc & Hs & Hr).
  exists pre, h, resp, msg. repeat split; try assumption.
  injection Hr as ->. reflexivity.
Qed.

Lemma guarded_ret {A} (a : A) : guarded (ret a).
Proof. intros t Ht. left. exact Ht. Qed.

Lemma guarded_raise {A} (e : exn) : guarded (@raise A e).
Proof. intros t Ht. left. exact Ht. Qed.

Lemma guarded_emit e : reports_failed e = false -> guarded (emit e).
Proof. intros He t Ht. left. cbn. apply clean_snoc; assumption. Qed.

Lemma guarded_eval {A} (o : outcome A) : guarded (eval o).
Proof. destruct o; [apply guarded_ret | apply guarded_raise]. Qed.

Lemma guarded_call {A} (reply : trace -> outcome A) ev :
  (forall o, reports_failed (ev o) = false) -> guarded (call reply ev).
Proof.
  intros Hev t Ht. left. unfold call.
  destruct (reply t); cbn; apply clean_snoc; auto.
Qed.

Lemma guarded_path_exists path : guarded (path_exists env path).
Proof. intros t Ht. left. cbn. apply clean_snoc; [exact Ht | reflexivity]. Qed.

Lemma guarded_bind {A B} (m : M A) (k : A -> M B) :
  guarded m -> (forall a, guarded (k a)) -> guarded (bind m k).
Proof.
  intros Hm Hk t Ht. unfold bind.
  destruct (Hm t Ht) as [Hc | Ha]; destruct (m t) as [[a | e] t']; cbn in *.
  - apply Hk. exact Hc.
  - left. exact Hc.
  - destruct Ha as (pre & h & resp & msg & _ & _ & _ & Hr). discriminate Hr.
  - right. apply aborted_exn with (1 := Ha).
Qed.

Lemma guarded_try_except {A} (body : M A) handler :
  guarded body -> (forall e, guarded (handler e)) ->
  guarded (try_except body handler).
Proof.
  intros Hb Hh t Ht. unfold try_except.
  destruct (Hb t Ht) as [Hc | Ha]; destruct (body t) as [[a | [c | e]] t'];
    cbn in *; try (left; exact Hc); try (right; exact Ha).
  - apply Hh. exact Hc.
  - destruct Ha as (pre & h & resp & msg & _ & _ & _ & Hr). discriminate Hr.
Qed.

Lemma guarded_try_except_class {A} cls (body : M A) handler :
  guarded body -> (forall e, guarded (handler e)) ->
  guarded (try_except_class cls body handler).
Proof.
  intros Hb Hh t Ht. unfold try_except_class.
  destruct (Hb t Ht) as [Hc | Ha]; destruct (body t) as [[a | [c | e]] t'];
    cbn in *; try (left; exact Hc); try (right; exact Ha).
  - destruct (String.eqb (exc_class e) cls); [apply Hh | left]; exact Hc.
  - destruct Ha as (pre & h & resp & msg & _ & _ & _ & Hr). discriminate Hr.
Qed.

Lemma guarded_for_range {R} n (body : M (option R)) :
  guarded body -> guarded (for_range n body).
Proof.
  intros Hb. induction n as [| n IH]; cbn [for_range].
  - apply guarded_ret.
  - apply guarded_bind; [exact Hb |].
    intros [v |]; [apply guarded_ret | exact IH].
Qed.

(** A status query followed by code that, on FAILED, prints one message
    and exits. *)
Lemma guarded_query {A} tx_hash (k : GetTransactionResponse -> M A) :
  (forall r, status r <> FAILED -> guarded (k r)) ->
  (forall r t, status r = FAILED ->
     exists msg, k r t = (Exn (SystemExit 1), t ++ [EvPrint msg])) ->
  guarded (bind (SorobanServer_get_transaction env tx_hash) k).
Proof.
  intros Hgo Hstop t Ht. unfold bind. rewrite get_transaction_run.
  destruct (get_transaction env (count is_query t) tx_hash) as [r | e].
  - destruct (status r) eqn:Hs.
    + apply Hgo; [congruence |].
      apply clean_snoc; [exact Ht | cbn; rewrite Hs; reflexivity].
    + apply Hgo; [congruence |].
      apply clean_snoc; [exact Ht | cbn; rewrite Hs; reflexivity].
    + right. destruct (Hstop r (t ++ [EvGetTransaction tx_hash (Ok r)]) Hs)
        as [msg Hk].
      rewrite Hk. cbn. exists t, tx_hash, r, msg.
      rewrite <- app_assoc. auto.
  - left. cbn. apply clean_snoc; [exact Ht | reflexivity].
Qed.

(** Discharges [guarded] for code built from the operations above. *)
Create HintDb guarded.

Ltac step_guarded :=
  repeat first
    [ solve [auto 1 with guarded nocore]
    | apply guarded_ret
    | apply guarded_raise
    | apply guarded_emit; reflexivity
    | apply guarded_eval
    | apply guarded_path_exists
    | apply guarded_call; intros ?; reflexivity
    | apply guarded_for_range
    | apply guarded_bind; [| intros ?]
    | apply guarded_try_except_class; [| intros ?]
    | apply guarded_try_except; [| intros ?]
    | match goal with
      | |- guarded (if ?b then _ else _) => destruct b
      | |- guarded (match ?o with Some _ => _ | None => _ end) => destruct o
      end ].

Lemma guarded_deployment_attempt response2 :
  guarded (deployment_attempt env response2).
Proof.
  unfold deployment_attempt. apply guarded_query.
  - intros r Hr. destruct (status r); [| | congruence]; cbn [status_eqb]; step_guarded.
  - intros r t Hr. rewrite Hr. cbn [status_eqb]. eexists. run_py. reflexivity.
Qed.

#[local] Hint Resolve guarded_deployment_attempt : guarded.

Lemma guarded_deploy_instance deployer response tx_response :
  guarded (deploy_instance env deployer response tx_response).
Proof.
  unfold deploy_instance, Server_load_account,
    SorobanServer_prepare_transaction, SorobanServer_send_transaction.
  step_guarded.
Qed.

Lemma guarded_upload_attempt deployer response :
  guarded (upload_attempt env deployer response).
Proof.
  unfold upload_attempt. apply guarded_bind.
  - apply guarded_try_except; [| intros e; apply guarded_ret].
    unfold upload_query. apply guarded_query.
    + intros r Hr. destruct (status r); [| | congruence]; cbn [status_eqb].
      * apply guarded_bind; [apply guarded_deploy_instance |].
        intros v. apply guarded_ret.
      * apply guarded_ret.
    + intros r t Hr. rewrite Hr. cbn [status_eqb]. eexists. run_py. reflexivity.
  - intros [v |]; step_guarded.
Qed.

#[local] Hint Resolve guarded_deploy_instance guarded_upload_attempt : guarded.

Lemma guarded_wait_for_confirmation deployer response :
  guarded (wait_for_confirmation env deployer response).
Proof. unfold wait_for_confirmation. step_guarded. Qed.

#[local] Hint Resolve guarded_wait_for_confirmation : guarded.

Lemma guarded_deploy_contract : guarded (deploy_contract env).
Proof.
  unfold deploy_contract, get_deployer_keypair, subprocess_run_checked,
    read_file, Server_load_account, SorobanServer_prepare_transaction,
    SorobanServer_send_transaction.
  step_guarded.
Qed.

#[local] Hint Resolve guarded_deploy_contract : guarded.

Lemma guarded_main : guarded (main env).
Proof. unfold main. step_guarded. Qed.

(** In a trace that stops right after its first FAILED status and one
    message, a FAILED status can only be that one. *)
Lemma failed_status_is_last pre e post pre' e' msg :
  pre ++ e :: post = pre' ++ [e'; EvPrint msg] ->
  clean pre' -> reports_failed e = true ->
  pre = pre' /\ post = [EvPrint msg].
Proof.
  revert pre. induction pre' as [| a pre' IH]; intros pre Heq Hc He.
  - destruct pre as [| b [| b' pre]]; cbn in Heq.
    + injection Heq as _ ->. auto.
    + injection Heq as _ ->. discriminate He.
    + injection Heq as _ _ Heq. destruct pre; discriminate Heq.
  - inversion Hc as [| ? ? Ha Hc']; subst.
    destruct pre as [| b pre]; cbn in Heq.
    + injection Heq as -> _. congruence.
    + injection Heq as -> Heq.
      destruct (IH pre Heq Hc' He) as [-> ->]. auto.
Qed.

End PollerFacts.

(** ** Passes of the two polling loops *)

Section LoopFacts.
Import Deploy.
Local Open Scope nat_scope.

Variable env : Env.

Lemma count_query_polls tx_hash after c k :
  count is_query after = 0 ->
  count is_query (polls env tx_hash after c k) = k.
Proof.
  intros Ha. revert c. induction k as [| k IH]; intros c; cbn.
  - reflexivity.
  - rewrite count_app, Ha, IH. reflexivity.
Qed.

Lemma count_sleep_polls tx_hash after c k :
  count is_sleep (polls env tx_hash after c k) = k * count is_sleep after.
Proof.
  revert c. induction k as [| k IH]; intros c; cbn.
  - reflexivity.
  - rewrite count_app, IH. reflexivity.
Qed.

(** [k] passes of the deployment loop whose queries all report NOT_FOUND. *)
Lemma deployment_passes response2 k m t :
  (forall i, i < k ->
     pending (get_transaction env (count is_query t + i) (hash response2))) ->
  for_range (k + m) (deployment_attempt env response2) t
  = for_range m (deployment_attempt env response2)
      (t ++ polls env (hash response2) [EvSleep 2] (count is_query t) k).
Proof.
  revert t. induction k as [| k IH]; intros t H.
  - cbn. rewrite app_nil_r. reflexivity.
  - cbn [Nat.add]. rewrite for_range_step, deployment_attempt_run. cbv zeta.
    pose proof (H 0 ltac:(lia)) as H0. rewrite Nat.add_0_r in H0.
    cbn [polls].
    destruct (get_transaction env (count is_query t) (hash response2))
      as [r | e]; [| contradiction].
    cbn in H0. rewrite H0.
    rewrite IH.
    + rewrite count_app. cbn [count is_query].
      rewrite <- app_assoc. cbn [app].
      replace (count is_query t + (1 + (0 + 0))) with (S (count is_query t))
        by lia.
      reflexivity.
    + intros i Hi. rewrite count_app. cbn [count is_query].
      replace (count is_query t + (1 + (0 + 0)) + i)
        with (count is_query t + S i) by lia.
      apply H. lia.
Qed.

(** [k] passes of the upload loop whose queries report NOT_FOUND or raise. *)
Lemma upload_passes deployer response k m t :
  (forall i, i < k ->
     unavailable (get_transaction env (count is_query t + i) (hash response))) ->
  for_range (k + m) (upload_attempt env deployer response) t
  = for_range m (upload_attempt env deployer response)
      (t ++ polls env (hash response) [EvSleep 2; EvPrint "."]
              (count is_query t) k).
Proof.
  revert t. induction k as [| k IH]; intros t H.
  - cbn. rewrite app_nil_r. reflexivity.
  - cbn [Nat.add].
    rewrite for_range_step, upload_attempt_run, upload_query_run. cbv zeta.
    pose proof (H 0 ltac:(lia)) as H0. rewrite Nat.add_0_r in H0.
    cbn [polls].
    assert (Hnext : forall o,
      for_range (k + m) (upload_attempt env deployer response)
        ((t ++ [EvGetTransaction (hash response) o]) ++ [EvSleep 2; EvPrint "."])
      = for_range m (upload_attempt env deployer response)
          (t ++ EvGetTransaction (hash response) o
             :: [EvSleep 2; EvPrint "."]
                ++ polls env (hash response) [EvSleep 2; EvPrint "."]
                     (S (count is_query t)) k)).
    { intros o. rewrite IH.
      - rewrite !count_app. cbn [count is_query].
        rewrite <- !app_assoc. cbn [app].
        replace (count is_query t + (1 + 0) + (0 + (0 + 0)))
          with (S (count is_query t)) by lia.
        reflexivity.
      - intros i Hi. rewrite !count_app. cbn [count is_query].
        replace (count is_query t + (1 + 0) + (0 + (0 + 0)) + i)
          with (count is_query t + S i) by lia.
        apply H. lia. }
    destruct (get_transaction env (count is_query t) (hash response))
      as [r | e].
    + cbn in H0. rewrite H0. apply Hnext.
    + apply Hnext.
Qed.

(** The deployment loop when the status query number [k + 1] is the first
    to report a terminal status, SUCCESS. *)
Lemma deployment_loop_success response2 k resp t :
  k < 60 ->
  (forall i, i < k ->
     pending (get_transaction env (count is_query t + i) (hash response2))) ->
  get_transaction env (count is_query t + k) (hash response2) = Ok resp ->
  status resp = SUCCESS ->
  for_range 60 (deployment_attempt env response2) t
  = (Val (Some (Some (hash response2))),
     t ++ polls env (hash response2) [EvSleep 2] (count is_query t) k
       ++ EvGetTransaction (hash response2) (Ok resp)
            :: deployed_messages (hash response2)).
Proof.
  intros Hk Hpend Hget Hs.
  replace 60 with (k + S (59 - k)) by lia.
  rewrite deployment_passes by exact Hpend.
  rewrite for_range_step, deployment_attempt_run. cbv zeta.
  rewrite count_app, count_query_polls by reflexivity.
  rewrite Hget, Hs, <- app_assoc. reflexivity.
Qed.

(** The deployment loop when none of its sixty queries reports a
    terminal status: it ends without a value, a message or an exit. *)
Lemma deployment_loop_gives_up response2 t :
  (forall i, i < 60 ->
     pending (get_transaction env (count is_query t + i) (hash response2))) ->
  for_range 60 (deployment_attempt env response2) t
  = (Val None,
     t ++ polls env (hash response2) [EvSleep 2] (count is_query t) 60).
Proof.
  intros Hpend.
  change 60 with (60 + 0) at 1.
  rewrite deployment_passes by exact Hpend. reflexivity.
Qed.

(** The upload loop when none of its sixty queries reports a terminal
    status. *)
Lemma upload_loop_gives_up deployer response t :
  (forall i, i < 60 ->
     unavailable (get_transaction env (count is_query t + i) (hash response))) ->
  for_range 60 (upload_attempt env deployer response) t
  = (Val None,
     t ++ polls env (hash response) [EvSleep 2; EvPrint "."]
            (count is_query t) 60).
Proof.
  intros Hun.
  change 60 with (60 + 0) at 1.
  rewrite upload_passes by exact Hun. reflexivity.
Qed.

(** The upload loop when the status query number [k + 1] is the first to
    report a terminal status, SUCCESS: the deployment phase runs at once,
    and its outcome decides how the loop goes on. *)
Lemma upload_loop_success deployer response k resp t :
  k < 60 ->
  (forall i, i < k ->
     unavailable (get_transaction env (count is_query t + i) (hash response))) ->
  get_transaction env (count is_query t + k) (hash response) = Ok resp ->
  status resp = SUCCESS ->
  for_range 60 (upload_attempt env deployer response) t
  = match deploy_instance env deployer response resp
            (t ++ polls env (hash response) [EvSleep 2; EvPrint "."]
                    (count is_query t) k
               ++ [EvGetTransaction (hash response) (Ok resp)]) with
    | (Val v, t') => (Val (Some v), t')
    | (Exn (SystemExit c), t') => (Exn (SystemExit c), t')
    | (Exn (Exc e), t') =>
        for_range (59 - k) (upload_attempt env deployer response)
          (t' ++ [EvSleep 2; EvPrint "."])
    end.
Proof.
  intros Hk Hun Hget Hs.
  replace 60 with (k + S (59 - k)) by lia.
  rewrite upload_passes by exact Hun.
  rewrite for_range_step, upload_attempt_run, upload_query_run. cbv zeta.
  rewrite count_app, count_query_polls by reflexivity.
  rewrite Hget, Hs, <- app_assoc.
  destruct (deploy_instance env deployer response resp _)
    as [[v | [c | e]] t']; reflexivity.
Qed.

(** The deployment phase when Horizon and the RPC server accept its
    three calls. *)
Lemma deploy_instance_run deployer response tx_response source tx2 prepared
    response2 t :
  load_account env (count is_load t) (public_key deployer) = Ok source ->
  build_transaction env (create_contract_tx deployer response source)
  = Ok tx2 ->
  prepare_transaction env (count is_prepare t) tx2 = Ok prepared ->
  send_transaction env (count is_send t) (sign deployer prepared)
  = Ok response2 ->
  deploy_instance env deployer response tx_response t
  = match for_range 60 (deployment_attempt env response2)
            (t ++ uploaded_messages (hash response)
               ++ [EvLoadAccount (public_key deployer) (Ok source);
                   EvPrepare tx2 (Ok prepared);
                   EvSend (sign deployer prepared) (Ok response2);
                   EvPrint ("📡 Contract deployment tx: " +:+ hash response2
                            +:+ nl)]) with
    | (Val (Some v), t') => (Val v, t')
    | (Val None, t') => (Val None, t')
    | (Exn e, t') => (Exn e, t')
    end.
Proof.
  intros Hload Hbuild Hprep Hsend.
  unfold deploy_instance, Server_load_account,
    SorobanServer_prepare_transaction, SorobanServer_send_transaction.
  run_py.
  rewrite !count_app. cbn [count is_load is_prepare is_send].
  rewrite !Nat.add_0_r, Hload.
  fold (create_contract_tx deployer response source). rewrite Hbuild.
  rewrite <- ?app_assoc. cbn [app].
  rewrite !count_app. cbn [count is_load is_prepare is_send].
  rewrite !Nat.add_0_r, Hprep.
  rewrite <- ?app_assoc. cbn [app].
  rewrite !count_app. cbn [count is_load is_prepare is_send].
  rewrite !Nat.add_0_r, Hsend.
  rewrite <- ?app_assoc. cbn [app uploaded_messages].
  destruct (for_range 60 (deployment_attempt env response2) _)
    as [[[v |] | e] t']; reflexivity.
Qed.

End LoopFacts.

(** ** What the poller promises *)

Section PollerClaims.
Import Deploy.
Local Open Scope nat_scope.

(** C1: in every run of the script, a status query that reports FAILED,
    in either polling loop, is the first one to do so and is followed by
    one printed message only: no further status query and no delay; the
    interpreter exits with status 1. *)
Theorem failed_status_aborts_run env pre tx_hash resp post :
  snd (run env) = pre ++ EvGetTransaction tx_hash (Ok resp) :: post ->
  status resp = FAILED ->
  fst (run env) = 1%Z
  /\ clean pre
  /\ (exists msg, post = [EvPrint msg])
  /\ count is_query post = 0
  /\ count is_sleep post = 0.
Proof.
  intros Ht Hs. unfold run in *.
  pose proof (guarded_main env [] (List.Forall_nil _)) as Hg.
  destruct (main env []) as [r t]. cbn [fst snd] in *. subst t.
  assert (He : reports_failed (EvGetTransaction tx_hash (Ok resp)) = true).
  { cbn. rewrite Hs. reflexivity. }
  destruct Hg as [Hc | (pre' & h & resp' & msg & Heq & Hc & _ & ->)].
  - apply clean_app in Hc as [_ Hc]. inversion Hc as [| ? ? Hq _]; subst.
    congruence.
  - destruct (failed_status_is_last _ _ _ _ _ _ Heq Hc He) as [-> ->].
    repeat split; eauto.
Qed.

Lemma failed_status_aborts_run_witness :
  fst (run Scenarios.deployment_fails) = 1%Z
  /\ clean Scenarios.before_failure
  /\ (exists msg,
        [EvPrint ("❌ Deployment failed: status=meta-failed" +:+ nl)]
        = [EvPrint msg])
  /\ count is_query
       [EvPrint ("❌ Deployment failed: status=meta-failed" +:+ nl)] = 0
  /\ count is_sleep
       [EvPrint ("❌ Deployment failed: status=meta-failed" +:+ nl)] = 0.
Proof.
  apply (failed_status_aborts_run Scenarios.deployment_fails
           Scenarios.before_failure "H2" Scenarios.failed_reply
           [EvPrint ("❌ Deployment failed: status=meta-failed" +:+ nl)]).
  - vm_compute. reflexivity.
  - reflexivity.
Defined.

Lemma count_polls_other env p tx_hash after c k :
  (forall o, p (EvGetTransaction tx_hash o) = false) ->
  count p after = 0 ->
  count p (polls env tx_hash after c k) = 0.
Proof.
  intros Hq Ha. revert c. induction k as [| k IH]; intros c; cbn.
  - reflexivity.
  - rewrite Hq, count_app, Ha, IH. reflexivity.
Qed.

(** C3, as the claim states it, fails.  In the world [horizon_lost] the
    first status query of the upload reports SUCCESS, yet the handle is
    queried sixty times and the run ends with exit status 1: the failure
    of the deployment phase is swallowed and the loop polls on.  In the
    world [confirmed] the poller does return, but what it returns is the
    hash of the polled transaction, [H2], and nothing of the reply that
    reported SUCCESS. *)
Lemma success_status_does_not_stop_polling :
  (query_log (snd (run Scenarios.horizon_lost))
   = repeat ("H1"%string, Some SUCCESS) 60
   /\ fst (run Scenarios.horizon_lost) = 1%Z)
  /\ (fst (deploy_contract Scenarios.confirmed []) = Val (Some "H2"%string)
      /\ get_transaction Scenarios.confirmed 3 "H2"
         = Scenarios.reply SUCCESS "meta-deploy").
Proof. vm_compute. repeat split; reflexivity. Qed.

(** C3, amended: if query number [k1 + 1] of the upload (at most the
    60th) is the first to report a terminal status and reports SUCCESS,
    the earlier ones having reported NOT_FOUND or raised, if the three
    calls of the deployment phase succeed on the transaction the builder
    yields, and if query number [k2 + 1]
    of the contract creation (at most the 60th) reports SUCCESS after
    NOT_FOUND replies only, then each handle is queried no more once it
    has reported SUCCESS, there is no delay after either SUCCESS, and
    [deploy_contract]'s poller returns the hash of the contract-creation
    transaction. *)
Theorem confirmed_poll_returns_transaction_hash env deployer response t
    k1 k2 resp1 source tx2 prepared response2 resp2 :
  let h1 := hash response in
  let h2 := hash response2 in
  let c := count is_query t in
  k1 < 60 -> k2 < 60 ->
  (forall i, i < k1 -> unavailable (get_transaction env (c + i) h1)) ->
  get_transaction env (c + k1) h1 = Ok resp1 ->
  status resp1 = SUCCESS ->
  load_account env (count is_load t) (public_key deployer) = Ok source ->
  build_transaction env (create_contract_tx deployer response source)
  = Ok tx2 ->
  prepare_transaction env (count is_prepare t) tx2 = Ok prepared ->
  send_transaction env (count is_send t) (sign deployer prepared)
  = Ok response2 ->
  (forall i, i < k2 -> pending (get_transaction env (c + S k1 + i) h2)) ->
  get_transaction env (c + S k1 + k2) h2 = Ok resp2 ->
  status resp2 = SUCCESS ->
  wait_for_confirmation env deployer response t
  = (Val (Some h2),
     t ++ [EvPrint ("⏳ Waiting for confirmation..." +:+ nl)]
       ++ polls env h1 [EvSleep 2; EvPrint "."] c k1
       ++ [EvGetTransaction h1 (Ok resp1)]
       ++ uploaded_messages h1
       ++ [EvLoadAccount (public_key deployer) (Ok source);
           EvPrepare tx2 (Ok prepared);
           EvSend (sign deployer prepared) (Ok response2);
           EvPrint ("📡 Contract deployment tx: " +:+ h2 +:+ nl)]
       ++ polls env h2 [EvSleep 2] (c + S k1) k2
       ++ EvGetTransaction h2 (Ok resp2) :: deployed_messages h2).
Proof.
  cbv zeta.
  intros Hk1 Hk2 Hun Hget1 Hs1 Hload Hbuild Hprep Hsend Hpend Hget2 Hs2.
  unfold wait_for_confirmation. run_py.
  set (t0 := t ++ [EvPrint ("⏳ Waiting for confirmation..." +:+ nl)]).
  assert (Hc0 : count is_query t0 = count is_query t).
  { unfold t0. rewrite count_app. cbn. lia. }
  rewrite (upload_loop_success env deployer response k1 resp1 t0);
    rewrite ?Hc0; try assumption.
  set (t1 := t0 ++ _ ++ _).
  assert (Hother : forall p,
            (forall h o, p (EvGetTransaction h o) = false) ->
            p (EvPrint ("⏳ Waiting for confirmation..." +:+ nl)) = false ->
            p (EvSleep 2) = false -> p (EvPrint ".") = false ->
            count p t1 = count p t).
  { intros p Hq Hw Hsl Hdot. unfold t1, t0. rewrite !count_app.
    rewrite count_polls_other; [| auto | cbn; rewrite Hsl, Hdot; reflexivity].
    cbn. rewrite Hw, Hq. lia. }
  rewrite (deploy_instance_run env deployer response resp1 source tx2
             prepared response2 t1);
    rewrite ?Hother by reflexivity; try assumption.
  set (t2 := t1 ++ _ ++ _).
  assert (Hc2 : count is_query t2 = count is_query t + S k1).
  { unfold t2, t1. rewrite !count_app, Hc0.
    rewrite count_query_polls by reflexivity. cbn. lia. }
  rewrite (deployment_loop_success env response2 k2 resp2 t2);
    rewrite ?Hc2; try assumption.
  unfold t2, t1, t0. rewrite <- !app_assoc. reflexivity.
Qed.

Lemma confirmed_poll_returns_transaction_hash_witness :
  fst (wait_for_confirmation Scenarios.confirmed Scenarios.deployer_keypair
         Scenarios.upload_response [])
  = Val (Some "H2"%string).
Proof.
  refine (f_equal fst
    (confirmed_poll_returns_transaction_hash Scenarios.confirmed
       Scenarios.deployer_keypair Scenarios.upload_response [] 1 1
       {| status := SUCCESS; result_meta_xdr := Some "meta-upload"%string;
          response_str := "status=meta-upload" |}
       {| account_id := "GDEPLOYER"; sequence := 0 |}
       (create_contract_tx Scenarios.deployer_keypair
          Scenarios.upload_response
          {| account_id := "GDEPLOYER"; sequence := 0 |})
       (create_contract_tx Scenarios.deployer_keypair
          Scenarios.upload_response
          {| account_id := "GDEPLOYER"; sequence := 0 |})
       Scenarios.deployment_response
       {| status := SUCCESS; result_meta_xdr := Some "meta-deploy"%string;
          response_str := "status=meta-deploy" |}
       _ _ _ _ _ _ _ _ _ _ _ _));
    try reflexivity; try lia.
  - intros [| i] Hi; [reflexivity | lia].
  - intros [| i] Hi; [reflexivity | lia].
Defined.

(** X1: the upload poll times out: sixty queries that report NOT_FOUND
    or raise, each followed by a delay of 2 seconds and a dot, then the
    timeout message and [SystemExit(1)]. *)
Theorem upload_poll_times_out env deployer response t :
  (forall i, i < 60 ->
     unavailable (get_transaction env (count is_query t + i) (hash response))) ->
  wait_for_confirmation env deployer response t
  = (Exn (SystemExit 1),
     t ++ [EvPrint ("⏳ Waiting for confirmation..." +:+ nl)]
       ++ polls env (hash response) [EvSleep 2; EvPrint "."]
            (count is_query t) 60
       ++ [EvPrint (nl +:+ "❌ Transaction timeout" +:+ nl)]).
Proof.
  intros Hun. unfold wait_for_confirmation. run_py.
  assert (Hc : count is_query
                 (t ++ [EvPrint ("⏳ Waiting for confirmation..." +:+ nl)])
               = count is_query t).
  { rewrite count_app. cbn. lia. }
  rewrite upload_loop_gives_up; rewrite Hc; [| exact Hun].
  rewrite <- !app_assoc. reflexivity.
Qed.

Lemma upload_poll_times_out_witness :
  fst (wait_for_confirmation Scenarios.never_confirmed
         Scenarios.deployer_keypair Scenarios.upload_response [])
  = Exn (SystemExit 1).
Proof.
  refine (f_equal fst
    (upload_poll_times_out Scenarios.never_confirmed
       Scenarios.deployer_keypair Scenarios.upload_response [] _)).
  intros i Hi. reflexivity.
Defined.

(** C2 fails for the deployment loop.  In the world [deployment_pending]
    the upload is confirmed at once and the sixty status queries of the
    contract creation all report NOT_FOUND, each followed by a delay of 2
    seconds: [deploy_contract] then returns [None], nothing is printed
    after the last delay, and the interpreter exits with status 0. *)
Theorem deployment_timeout_is_silent :
  fst (deploy_contract Scenarios.deployment_pending []) = Val None
  /\ fst (run Scenarios.deployment_pending) = 0%Z
  /\ query_log (snd (run Scenarios.deployment_pending))
     = ("H1"%string, Some SUCCESS) :: repeat ("H2"%string, Some NOT_FOUND) 60
  /\ count is_sleep (snd (run Scenarios.deployment_pending)) = 60
  /\ last (snd (run Scenarios.deployment_pending)) = Some (EvSleep 2).
Proof. vm_compute. repeat split; reflexivity. Qed.

(** No pass of the upload loop lets an [Exception] out. *)
Lemma upload_loop_never_raises env deployer response n t e :
  fst (for_range n (upload_attempt env deployer response) t) <> Exn (Exc e).
Proof.
  revert t. induction n as [| n IH]; intros t.
  - discriminate.
  - rewrite for_range_step, upload_attempt_run.
    destruct (upload_query env deployer response t) as [[[v |] | [c | e']] t'];
      cbn [fst]; try discriminate; apply IH.
Qed.

(** An exception of the upload's own status query ends the [try] block. *)
Lemma upload_query_raises env deployer response t e :
  get_transaction env (count is_query t) (hash response) = Raises e ->
  upload_query env deployer response t
  = (Exn (Exc e), t ++ [EvGetTransaction (hash response) (Raises e)]).
Proof. intros H. rewrite upload_query_run. cbv zeta. rewrite H. reflexivity. Qed.

(** C8: when a status query inside the retry loop raises an exception
    (the [try] block of a pass ends with that query and its exception),
    the pass ends like one that found no terminal status: a delay of 2
    seconds, a dot, no value; the loop continues with the passes that
    remain.  No exception ever leaves the loop or the poller. *)
Theorem status_query_exception_is_swallowed env deployer response n t t1
    tx_hash e :
  upload_query env deployer response t
  = (Exn (Exc e), t1 ++ [EvGetTransaction tx_hash (Raises e)]) ->
  upload_attempt env deployer response t
  = (Val None,
     t1 ++ [EvGetTransaction tx_hash (Raises e); EvSleep 2; EvPrint "."])
  /\ for_range (S n) (upload_attempt env deployer response) t
     = for_range n (upload_attempt env deployer response)
         (t1 ++ [EvGetTransaction tx_hash (Raises e); EvSleep 2; EvPrint "."])
  /\ (forall m t' e',
        fst (for_range m (upload_attempt env deployer response) t')
        <> Exn (Exc e'))
  /\ (forall t' e',
        fst (wait_for_confirmation env deployer response t') <> Exn (Exc e')).
Proof.
  intros Hq.
  assert (Hpass : upload_attempt env deployer response t
                  = (Val None,
                     t1 ++ [EvGetTransaction tx_hash (Raises e);
                            EvSleep 2; EvPrint "."])).
  { rewrite upload_attempt_run, Hq, <- app_assoc. reflexivity. }
  repeat split.
  - exact Hpass.
  - rewrite for_range_step, Hpass. reflexivity.
  - intros m t' e'. apply upload_loop_never_raises.
  - intros t' e'. unfold wait_for_confirmation. run_py.
    pose proof (upload_loop_never_raises env deployer response 60
                  (t' ++ [EvPrint ("⏳ Waiting for confirmation..." +:+ nl)]))
      as Hn.
    destruct (for_range 60 _ _) as [[[v |] | [c | e'']] t'']; cbn [fst] in *;
      try discriminate.
    exfalso. apply (Hn e''). reflexivity.
Qed.

Lemma status_query_exception_is_swallowed_witness :
  upload_attempt Scenarios.rpc_hiccup Scenarios.deployer_keypair
    Scenarios.upload_response []
  = (Val None,
     [EvGetTransaction "H1" (Raises Scenarios.network_down);
      EvSleep 2; EvPrint "."]).
Proof.
  exact (proj1 (status_query_exception_is_swallowed Scenarios.rpc_hiccup
           Scenarios.deployer_keypair Scenarios.upload_response 59 [] []
           "H1"%string Scenarios.network_down eq_refl)).
Defined.

(** The same for a status query of the deployment loop: in the world
    [deployment_hiccup] its second query raises; the exception ends the
    pass of the upload loop, which then polls the upload handle again for
    the 59 passes that remain and times out. *)
Lemma deployment_query_exception_resumes_upload_poll :
  query_log (snd (run Scenarios.deployment_hiccup))
  = [("H1"%string, Some SUCCESS); ("H2"%string, Some NOT_FOUND);
     ("H2"%string, None)]
    ++ repeat ("H1"%string, Some NOT_FOUND) 59
  /\ fst (run Scenarios.deployment_hiccup) = 1%Z.
Proof. vm_compute. split; reflexivity. Qed.

End PollerClaims.

(** ** The amount conversion *)

Section AmountFacts.
Import Validator.

(** C4 fails on the code.  The amount [0.57] has two fractional digits
    and denotes 57 * 10^-2, that is 5700000 stroops; the conversion
    [int(float(amount) * 10_000_000)] yields 5699999, because the binary64
    product 0.57 * 10000000 lies just below 5700000 and [int] truncates. *)
Theorem amount_to_stroops_loses_a_stroop :
  floatnumber (list_ascii_of_string "0.57") = Some (57, -2)
  /\ 57 * 10 ^ (7 - 2) = 5700000
  /\ float_mul (float_of_decimal false 57 (-2)) (float_of_int 10000000)
     = S754_finite false 6120328396799999 (-30)
  /\ amount_to_stroops "0.57" = Ok 5699999.
Proof. vm_compute. repeat split; reflexivity. Qed.

End AmountFacts.

(** ** More on the session validator facade *)

Section FacadeFootprint.
Import Validator.

(** X3: the verdict of [validate_payment] depends neither on the session
    id, nor on the asset, nor on what happened before: [valid] is [True]
    exactly when the service is not fully configured or the amount
    converts to an integer, and [validated_by_contract] tells which. *)
Theorem validate_payment_verdict self session_id amount paid_asset t :
  let configured :=
    (truthy_str (contract_id self) && truthy_obj (backend_keypair self))%bool in
  let converts :=
    match amount_to_stroops amount with Ok _ => true | Raises _ => false end in
  exists d : dict,
    fst (validate_payment self session_id amount paid_asset t) = Val d
    /\ d !! "valid" = Some (VBool (negb configured || converts))
    /\ d !! "validated_by_contract" = Some (VBool configured).
Proof.
  cbv zeta.
  destruct (truthy_str (contract_id self)) eqn:Hc.
  - destruct (truthy_obj (backend_keypair self)) eqn:Hk.
    + rewrite validate_payment_configured by assumption.
      destruct (amount_to_stroops amount); eexists;
        (split; [reflexivity | split; reflexivity]).
    + rewrite validate_payment_unconfigured.
      * eexists. split; [reflexivity | split; reflexivity].
      * right. destruct (backend_keypair self); [discriminate | reflexivity].
  - rewrite validate_payment_unconfigured by (left; exact Hc).
    eexists. split; [reflexivity | split; reflexivity].
Qed.

(** X4: the facade hardly touches the network.  [validate_payment],
    [deactivate_session] and [get_session_status] only write log records,
    whatever the configuration and the arguments.
    [register_payment_session] makes at most one call, [load_account] for
    the backend's public key, and none when the amount does not
    convert: the amount is checked first. *)
Theorem facade_network_footprint env self session_id merchant_address amount
    paid_asset t :
  (exists ext,
     snd (validate_payment self session_id amount paid_asset t) = t ++ ext
     /\ Forall (fun e => is_log e = true) ext)
  /\ (exists ext,
        snd (deactivate_session self session_id t) = t ++ ext
        /\ Forall (fun e => is_log e = true) ext)
  /\ snd (get_session_status self session_id t) = t
  /\ (exists ext,
        snd (register_payment_session env self session_id merchant_address
               amount t) = t ++ ext
        /\ Forall (fun e => is_network e = true ->
                     exists keypair r,
                       backend_keypair self = Some keypair
                       /\ e = EvLoadAccount (public_key keypair) r) ext
        /\ (count is_network ext <= 1)%nat
        /\ (forall e, amount_to_stroops amount = Raises e ->
              count is_network ext = 0%nat)).
Proof.
  repeat split.
  - destruct (truthy_str (contract_id self)) eqn:Hc;
      [destruct (truthy_obj (backend_keypair self)) eqn:Hk |].
    + rewrite validate_payment_configured by assumption.
      destruct (amount_to_stroops amount); eexists;
        (split; [reflexivity | repeat constructor]).
    + rewrite validate_payment_unconfigured.
      * eexists. split; [reflexivity | repeat constructor].
      * right. destruct (backend_keypair self); [discriminate | reflexivity].
    + rewrite validate_payment_unconfigured by (left; exact Hc).
      eexists. split; [reflexivity | repeat constructor].
  - unfold deactivate_session.
    destruct (truthy_str (contract_id self));
      destruct (truthy_obj (backend_keypair self)); cbn [negb orb].
    + eexists. split; [run_py; reflexivity | repeat constructor].
    + exists []. rewrite app_nil_r. split; [reflexivity | constructor].
    + exists []. rewrite app_nil_r. split; [reflexivity | constructor].
    + exists []. rewrite app_nil_r. split; [reflexivity | constructor].
  - unfold get_session_status.
    destruct (truthy_str (contract_id self)); reflexivity.
  - destruct (truthy_str (contract_id self)) eqn:Hc;
      [destruct (backend_keypair self) as [keypair |] eqn:Hk |].
    + rewrite (register_payment_session_configured env self keypair)
        by assumption.
      destruct (amount_to_stroops amount) as [z | e].
      * cbv zeta.
        destruct (load_account env (count is_load t) (public_key keypair));
          eexists; (split; [reflexivity |]);
          (split; [| split; [cbn; lia | intros e' He'; discriminate He']]);
          repeat constructor; cbn; try discriminate; eauto.
      * eexists. split; [reflexivity |].
        split; [| split; [cbn; lia | intros e' _; reflexivity]].
        repeat constructor. cbn. discriminate.
    + unfold register_payment_session. rewrite Hc, Hk. cbn [negb].
      eexists. split; [run_py; reflexivity |].
      split; [| split; [cbn; lia | intros e' _; reflexivity]].
      repeat constructor. cbn. discriminate.
    + unfold register_payment_session. rewrite Hc. cbn [negb].
      eexists. split; [run_py; reflexivity |].
      split; [| split; [cbn; lia | intros e' _; reflexivity]].
      repeat constructor. cbn. discriminate.
Qed.

End FacadeFootprint.

(** ** The steps of the script before the poll *)

Section StartupFacts.
Import Deploy.
Local Open Scope nat_scope.

Variable env : Env.

(** Brings the call counters of a trace [t ++ events] back to those of [t]. *)
Ltac count_events :=
  rewrite ?count_app;
  cbn [count is_load is_prepare is_send is_query Nat.add];
  rewrite ?Nat.add_0_r.

(** [deploy_contract] step by step, up to the poll. *)
Lemma deploy_contract_run t :
  deploy_contract env t
  = let t0 := t ++ [EvPrint ("🚀 Starting contract deployment..." +:+ nl)] in
    match subprocess_run env keys_argv with
    | Raises e =>
        (Exn (SystemExit 1),
         t0 ++ EvSubprocess keys_argv (Raises e) :: key_failure e)
    | Ok out =>
    match Keypair_from_secret env (strip out) with
    | Raises e =>
        (Exn (SystemExit 1),
         t0 ++ EvSubprocess keys_argv (Ok out) :: key_failure e)
    | Ok deployer =>
    let t1 :=
      t0 ++ [EvSubprocess keys_argv (Ok out);
             EvPrint ("📝 Deployer address: " +:+ public_key deployer +:+ nl);
             EvExists WASM_PATH (os_path_exists env WASM_PATH)] in
    if os_path_exists env WASM_PATH then
    match read_binary env WASM_PATH with
    | Raises e => (Exn (Exc e), t1 ++ [EvRead WASM_PATH (Raises e)])
    | Ok wasm_binary =>
    let t2 :=
      t1 ++ [EvRead WASM_PATH (Ok wasm_binary);
             EvPrint (("📦 WASM size: "
                       +:+ str_of_nat (String.length wasm_binary)
                       +:+ " bytes") +:+ nl);
             EvPrint ("🔍 Loading account..." +:+ nl)] in
    match load_account env (count is_load t) (public_key deployer) with
    | Raises e =>
        (Exn (Exc e), t2 ++ [EvLoadAccount (public_key deployer) (Raises e)])
    | Ok source =>
    let t3 :=
      t2 ++ [EvLoadAccount (public_key deployer) (Ok source);
             EvPrint ("📤 Uploading WASM to Stellar..." +:+ nl)] in
    match build_transaction env (upload_tx wasm_binary source) with
    | Raises e => (Exn (Exc e), t3)
    | Ok tx =>
    match prepare_transaction env (count is_prepare t) tx with
    | Raises e =>
        if String.eqb (exc_class e) "PrepareTransactionException" then
          (Exn (SystemExit 1),
           t3 ++ [EvPrepare tx (Raises e);
                  EvPrint ("❌ Error preparing transaction: " +:+ exc_msg e
                           +:+ nl)])
        else (Exn (Exc e), t3 ++ [EvPrepare tx (Raises e)])
    | Ok prepared =>
    let t4 :=
      t3 ++ [EvPrepare tx (Ok prepared);
             EvPrint ("📡 Submitting transaction..." +:+ nl)] in
    match send_transaction env (count is_send t) (sign deployer prepared) with
    | Raises e =>
        (Exn (Exc e), t4 ++ [EvSend (sign deployer prepared) (Raises e)])
    | Ok response =>
        wait_for_confirmation env deployer response
          (t4 ++ [EvSend (sign deployer prepared) (Ok response);
                  EvPrint ("✅ Transaction submitted: " +:+ hash response
                           +:+ nl)])
    end end end end end
    else (Exn (SystemExit 1), t1 ++ wasm_missing)
    end end.
Proof.
  unfold deploy_contract, get_deployer_keypair, subprocess_run_checked,
    path_exists, read_file, Server_load_account,
    SorobanServer_prepare_transaction, SorobanServer_send_transaction.
  fold keys_argv. cbv zeta. run_py.
  destruct (subprocess_run env keys_argv) as [out | e];
    [| rewrite <- ?app_assoc; reflexivity].
  destruct (Keypair_from_secret env (strip out)) as [deployer | e];
    [| rewrite <- ?app_assoc; reflexivity].
  rewrite <- ?app_assoc. cbn [app].
  destruct (os_path_exists env WASM_PATH); cbn [negb];
    [| rewrite <- ?app_assoc; reflexivity].
  destruct (read_binary env WASM_PATH) as [wasm_binary | e];
    [| rewrite <- ?app_assoc; reflexivity].
  rewrite <- ?app_assoc. cbn [app]. count_events.
  destruct (load_account env (count is_load t) (public_key deployer))
    as [source | e]; [| rewrite <- ?app_assoc; reflexivity].
  fold (upload_tx wasm_binary source).
  destruct (build_transaction env (upload_tx wasm_binary source)) as [tx | e];
    [| rewrite <- ?app_assoc; reflexivity].
  rewrite <- ?app_assoc. cbn [app]. count_events.
  destruct (prepare_transaction env (count is_prepare t) tx) as [prepared | e].
  - rewrite <- ?app_assoc. cbn [app]. count_events.
    destruct (send_transaction env (count is_send t) (sign deployer prepared))
      as [response | e]; rewrite <- ?app_assoc; reflexivity.
  - destruct (String.eqb (exc_class e) "PrepareTransactionException");
      rewrite <- ?app_assoc; reflexivity.
Qed.

(** How [__main__] ends, given how [deploy_contract] ends. *)
Lemma run_by_outcome :
  run env
  = match deploy_contract env [] with
    | (Val v, t) =>
        (0%Z,
         if truthy_str v then
           t ++ [EvPrint ((nl +:+ "✅ Deployment complete!") +:+ nl);
                 EvPrint (("Contract ID: " +:+ default "" v) +:+ nl)]
         else t)
    | (Exn (SystemExit c), t) => (c, t)
    | (Exn (Exc e), t) => (0%Z, t ++ reported e)
    end.
Proof.
  unfold run, main, try_except, bind.
  destruct (deploy_contract env []) as [[v | [c | e]] t].
  - destruct (truthy_str v); run_py; reflexivity.
  - reflexivity.
  - run_py. reflexivity.
Qed.

(** X5: when the deployer's key cannot be obtained (the [stellar] command
    fails or its output is not a valid secret) or the compiled contract is
    not on disk, the script exits with status 1 before any call to
    Horizon or to the RPC server. *)
Theorem startup_failure_exits_before_network :
  match subprocess_run env keys_argv with
  | Raises _ => True
  | Ok out =>
      match Keypair_from_secret env (strip out) with
      | Raises _ => True
      | Ok _ => os_path_exists env WASM_PATH = false
      end
  end ->
  fst (run env) = 1%Z /\ count is_network (snd (run env)) = 0.
Proof.
  intros H. rewrite run_by_outcome, deploy_contract_run. cbv zeta.
  destruct (subprocess_run env keys_argv) as [out | e];
    [| split; reflexivity].
  destruct (Keypair_from_secret env (strip out)) as [deployer | e];
    [| split; reflexivity].
  rewrite H. split; reflexivity.
Qed.

(** X6: when the RPC server refuses to prepare the upload transaction,
    nothing is sent and nothing is polled.  For a
    [PrepareTransactionException] the script prints one message and
    exits with status 1; any other exception reaches [__main__], which
    prints it with its traceback, and the script exits with status 0. *)
Theorem prepare_failure_handling out deployer wasm_binary source tx e :
  subprocess_run env keys_argv = Ok out ->
  Keypair_from_secret env (strip out) = Ok deployer ->
  os_path_exists env WASM_PATH = true ->
  read_binary env WASM_PATH = Ok wasm_binary ->
  load_account env 0 (public_key deployer) = Ok source ->
  build_transaction env (upload_tx wasm_binary source) = Ok tx ->
  prepare_transaction env 0 tx = Raises e ->
  count is_send (snd (run env)) = 0
  /\ count is_query (snd (run env)) = 0
  /\ if String.eqb (exc_class e) "PrepareTransactionException" then
       fst (run env) = 1%Z
       /\ last (snd (run env))
          = Some (EvPrint (("❌ Error preparing transaction: " +:+ exc_msg e)
                           +:+ nl))
     else
       fst (run env) = 0%Z
       /\ exists t, snd (run env) = t ++ reported e.
Proof.
  intros Hrun Hkey Hwasm Hread Hload Hbuild Hprep.
  rewrite run_by_outcome, deploy_contract_run. cbv zeta.
  rewrite Hrun, Hkey, Hwasm, Hread. cbn [count]. rewrite Hload, Hbuild, Hprep.
  destruct (String.eqb (exc_class e) "PrepareTransactionException").
  - repeat split; reflexivity.
  - repeat split; try reflexivity. eexists. reflexivity.
Qed.

End StartupFacts.

Lemma startup_failure_exits_before_network_witness :
  fst (Deploy.run (Failures.without_wasm Scenarios.never_confirmed)) = 1%Z
  /\ count is_network
       (snd (Deploy.run (Failures.without_wasm Scenarios.never_confirmed)))
     = 0%nat.
Proof.
  apply (startup_failure_exits_before_network
           (Failures.without_wasm Scenarios.never_confirmed)).
  reflexivity.
Defined.

Lemma prepare_failure_handling_witness :
  count is_send
    (snd (Deploy.run (Failures.prepare_fails "TimeoutError"
                        Scenarios.never_confirmed))) = 0%nat
  /\ count is_query
       (snd (Deploy.run (Failures.prepare_fails "TimeoutError"
                           Scenarios.never_confirmed))) = 0%nat
  /\ fst (Deploy.run (Failures.prepare_fails "TimeoutError"
                        Scenarios.never_confirmed)) = 0%Z
  /\ exists t,
       snd (Deploy.run (Failures.prepare_fails "TimeoutError"
                          Scenarios.never_confirmed))
       = t ++ reported (mk_exc "TimeoutError" "simulation failed").
Proof.
  exact (prepare_failure_handling
           (Failures.prepare_fails "TimeoutError" Scenarios.never_confirmed)
           ("SDEPLOYERSECRET" +:+ nl)
           {| secret := "SDEPLOYERSECRET"; public_key := "GDEPLOYER" |}
           "wasm" {| account_id := "GDEPLOYER"; sequence := 0 |}
           (upload_tx "wasm" {| account_id := "GDEPLOYER"; sequence := 0 |})
           (mk_exc "TimeoutError" "simulation failed")
           eq_refl eq_refl eq_refl eq_refl eq_refl eq_refl eq_refl).
Defined.

(** ** How long the poll can last *)

Section PollCost.
Import Deploy.

Variable env : Env.

Lemma slept_app t1 t2 : slept (t1 ++ t2) = slept t1 + slept t2.
Proof.
  induction t1 as [| e t1 IH]; [reflexivity |].
  destruct e; cbn; rewrite ?IH; lia.
Qed.

(** Brings the measures of a trace [t ++ events] back to those of [t]. *)
Ltac measure :=
  rewrite ?count_app, ?slept_app;
  cbn [count is_query slept deployed_messages uploaded_messages key_failure
       wasm_missing reported app Nat.add Z.add].

(** The deployment loop: at most one query a pass and 2 seconds of sleep;
    a pass that ends with an exception has not slept. *)
Lemma deployment_loop_cost response2 n t :
  let r := for_range n (deployment_attempt env response2) t in
  (count is_query (snd r) <= count is_query t + n)%nat
  /\ slept (snd r) <= slept t + 2 * Z.of_nat n
  /\ (forall e, fst r = Exn (Exc e) ->
        slept (snd r) + 2 <= slept t + 2 * Z.of_nat n).
Proof.
  cbv zeta. revert t. induction n as [| n IH]; intros t.
  - cbn. repeat split; try lia. discriminate.
  - rewrite for_range_step, deployment_attempt_run. cbv zeta.
    destruct (get_transaction env (count is_query t) (hash response2))
      as [resp | e].
    + destruct (status resp).
      * cbn [fst snd]. measure. repeat split; try lia; discriminate.
      * specialize (IH (t ++ [EvGetTransaction (hash response2) (Ok resp);
                              EvSleep 2])).
        revert IH. measure. intros (Hq & Hs & He).
        repeat split; try lia. intros e Hr. specialize (He e Hr). lia.
      * cbn [fst snd]. measure. repeat split; try lia; discriminate.
    + cbn [fst snd]. measure. repeat split; lia.
Qed.

(** The deployment phase: at most 60 queries and 120 seconds, and at most
    118 seconds when it ends with an exception. *)
Lemma deploy_instance_cost deployer response tx_response t :
  let r := deploy_instance env deployer response tx_response t in
  (count is_query (snd r) <= count is_query t + 60)%nat
  /\ slept (snd r) <= slept t + 120
  /\ (forall e, fst r = Exn (Exc e) -> slept (snd r) <= slept t + 118).
Proof.
  cbv zeta.
  unfold deploy_instance, Server_load_account,
    SorobanServer_prepare_transaction, SorobanServer_send_transaction.
  run_py.
  destruct (load_account env _ _) as [source | e];
    [| cbn [fst snd]; measure; repeat split; lia].
  destruct (build_transaction env _) as [tx2 | e];
    [| cbn [fst snd]; measure; repeat split; lia].
  destruct (prepare_transaction env _ _) as [prepared | e];
    [| cbn [fst snd]; measure; repeat split; lia].
  destruct (send_transaction env _ _) as [response2 | e];
    [| cbn [fst snd]; measure; repeat split; lia].
  match goal with
  | |- context [for_range 60 (deployment_attempt env response2) ?t2] =>
      pose proof (deployment_loop_cost response2 60 t2) as Hloop;
      cbv zeta in Hloop; revert Hloop;
      destruct (for_range 60 (deployment_attempt env response2) t2)
        as [[[v |] | x] t']
  end;
    cbn [fst snd]; measure; intros (Hq & Hs & He);
    repeat split; try lia; try discriminate.
  intros e Hr. injection Hr as ->. specialize (He e eq_refl). lia.
Qed.

(** A pass of the upload loop: at most 61 queries and 120 seconds. *)
Lemma upload_attempt_cost deployer response :
  frugal 61 120 (upload_attempt env deployer response).
Proof.
  intros t. rewrite upload_attempt_run, upload_query_run. cbv zeta.
  destruct (get_transaction env (count is_query t) (hash response))
    as [resp | e].
  - destruct (status resp).
    + pose proof (deploy_instance_cost deployer response resp
                    (t ++ [EvGetTransaction (hash response) (Ok resp)]))
        as Hcost.
      cbv zeta in Hcost. revert Hcost.
      destruct (deploy_instance env deployer response resp _)
        as [[v | [c | e]] t'];
        cbn [fst snd]; measure; intros (Hq & Hs & He); try (split; lia).
      specialize (He e eq_refl). split; lia.
    + cbn [fst snd]. measure. split; lia.
    + cbn [fst snd]. measure. split; lia.
  - cbn [fst snd]. measure. split; lia.
Qed.

Lemma frugal_for_range {R} q s n (body : M (option R)) :
  0 <= s -> frugal q s body ->
  frugal (n * q) (Z.of_nat n * s) (for_range n body).
Proof.
  intros Hs Hb. induction n as [| n IH]; intros t.
  - cbn. split; lia.
  - rewrite for_range_step. destruct (Hb t) as [Hq1 Hs1].
    destruct (body t) as [[[v |] | e] t']; cbn [fst snd] in *;
      try (split; nia).
    destruct (IH t') as [Hq2 Hs2]. split; nia.
Qed.

(** The whole poll: at most 3660 queries and 7200 seconds. *)
Lemma wait_for_confirmation_cost deployer response :
  frugal 3660 7200 (wait_for_confirmation env deployer response).
Proof.
  intros t. unfold wait_for_confirmation. run_py.
  pose proof (frugal_for_range 61 120 60 _ ltac:(lia)
                (upload_attempt_cost deployer response)
                (t ++ [EvPrint ("⏳ Waiting for confirmation..." +:+ nl)]))
    as Hloop.
  revert Hloop.
  destruct (for_range 60 (upload_attempt env deployer response) _)
    as [[[v |] | e] t'];
    cbn [fst snd]; measure; intros [Hq Hs]; split; lia.
Qed.

Lemma deploy_contract_cost : frugal 3660 7200 (deploy_contract env).
Proof.
  intros t. rewrite deploy_contract_run. cbv zeta.
  destruct (subprocess_run env keys_argv) as [out | e];
    [| cbn [fst snd]; measure; split; lia].
  destruct (Keypair_from_secret env (strip out)) as [deployer | e];
    [| cbn [fst snd]; measure; split; lia].
  destruct (os_path_exists env WASM_PATH);
    [| cbn [fst snd]; measure; split; lia].
  destruct (read_binary env WASM_PATH) as [wasm_binary | e];
    [| cbn [fst snd]; measure; split; lia].
  destruct (load_account env _ _) as [source | e];
    [| cbn [fst snd]; measure; split; lia].
  destruct (build_transaction env _) as [tx | e];
    [| cbn [fst snd]; measure; split; lia].
  destruct (prepare_transaction env _ _) as [prepared | e].
  - destruct (send_transaction env _ _) as [response | e];
      [| cbn [fst snd]; measure; split; lia].
    match goal with
    | |- context [wait_for_confirmation env deployer response ?t'] =>
        destruct (wait_for_confirmation_cost deployer response t') as [Hq Hs];
        revert Hq Hs
    end.
    measure. intros Hq Hs. split; lia.
  - destruct (String.eqb _ _); cbn [fst snd]; measure; split; lia.
Qed.

End PollCost.

(** The run in the world [worst_case], measured. *)
Lemma worst_case_measured :
  count is_query (snd (Deploy.run Failures.worst_case)) = 3660%nat
  /\ slept (snd (Deploy.run Failures.worst_case)) = 7200
  /\ fst (Deploy.run Failures.worst_case) = 1
  /\ count is_send (snd (Deploy.run Failures.worst_case)) = 61%nat.
Proof. vm_compute. repeat split; reflexivity. Qed.

(** X7: whatever the world does, a run of the script makes at most 3660
    status queries and sleeps at most 7200 seconds (two hours): every
    pass of the upload loop can start a deployment loop of its own.  The bounds are reached in the world [worst_case], where the
    run ends with the timeout message and exit status 1. *)
Theorem poll_cost_bound env :
  ((count is_query (snd (Deploy.run env)) <= 3660)%nat
   /\ slept (snd (Deploy.run env)) <= 7200)
  /\ (count is_query (snd (Deploy.run Failures.worst_case)) = 3660%nat
      /\ slept (snd (Deploy.run Failures.worst_case)) = 7200
      /\ fst (Deploy.run Failures.worst_case) = 1).
Proof.
  split.
  - rewrite run_by_outcome.
    destruct (deploy_contract_cost env []) as [Hq Hs]. revert Hq Hs.
    destruct (Deploy.deploy_contract env []) as [[v | [c | e]] t];
      cbn [fst snd count slept]; intros Hq Hs.
    + destruct (truthy_str v); cbn [snd];
        rewrite ?count_app, ?slept_app; cbn; lia.
    + lia.
    + rewrite count_app, slept_app. cbn. lia.
  - destruct worst_case_measured as (Hq & Hs & Hr & _). auto.
Qed.

(** ** What a returned hash stands for *)

Section ReturnedHash.
Import Deploy.

Variable env : Env.

Lemma deployment_loop_returns response2 n t v t' :
  for_range n (deployment_attempt env response2) t = (Val (Some v), t') ->
  ends_confirmed v t'.
Proof.
  revert t. induction n as [| n IH]; intros t H.
  - discriminate H.
  - rewrite for_range_step, deployment_attempt_run in H. cbv zeta in H.
    destruct (get_transaction env (count is_query t) (hash response2))
      as [resp | e]; [| discriminate H].
    destruct (status resp) eqn:Hs.
    + injection H as <- <-. exists t, resp. auto.
    + apply IH in H. exact H.
    + discriminate H.
Qed.

Lemma deploy_instance_returns deployer response tx_response t v t' :
  deploy_instance env deployer response tx_response t = (Val v, t') ->
  ends_confirmed v t'.
Proof.
  unfold deploy_instance, Server_load_account,
    SorobanServer_prepare_transaction, SorobanServer_send_transaction.
  run_py.
  destruct (load_account env _ _) as [source | e]; [| discriminate].
  destruct (build_transaction env _) as [tx2 | e]; [| discriminate].
  destruct (prepare_transaction env _ _) as [prepared | e]; [| discriminate].
  destruct (send_transaction env _ _) as [response2 | e]; [| discriminate].
  destruct (for_range 60 (deployment_attempt env response2) _)
    as [[[w |] | x] t''] eqn:Hloop; intros H; try discriminate H.
  - injection H as <- <-. apply deployment_loop_returns in Hloop. exact Hloop.
  - injection H as <- <-. exact I.
Qed.

Lemma upload_loop_returns deployer response n t v t' :
  for_range n (upload_attempt env deployer response) t = (Val (Some v), t') ->
  ends_confirmed v t'.
Proof.
  revert t. induction n as [| n IH]; intros t H.
  - discriminate H.
  - rewrite for_range_step, upload_attempt_run, upload_query_run in H.
    cbv zeta in H.
    destruct (get_transaction env (count is_query t) (hash response))
      as [resp | e]; [| apply IH in H; exact H].
    destruct (status resp).
    + destruct (deploy_instance env deployer response resp _)
        as [[w | [c | e]] t''] eqn:Hinst.
      * injection H as <- <-. apply deploy_instance_returns in Hinst.
        exact Hinst.
      * discriminate H.
      * apply IH in H. exact H.
    + apply IH in H. exact H.
    + discriminate H.
Qed.

Lemma wait_for_confirmation_returns deployer response t v t' :
  wait_for_confirmation env deployer response t = (Val v, t') ->
  ends_confirmed v t'.
Proof.
  unfold wait_for_confirmation. run_py.
  destruct (for_range 60 (upload_attempt env deployer response) _)
    as [[[w |] | x] t''] eqn:Hloop; intros H; try discriminate H.
  injection H as <- <-. apply upload_loop_returns in Hloop. exact Hloop.
Qed.

(** X9: [deploy_contract] never returns a hash it has not seen
    confirmed: when it returns [h], the run ended with a status query of
    [h] that reported SUCCESS, followed by the four lines that announce
    the contract id [h]; the script then exits with status 0. *)
Theorem returned_hash_was_confirmed h t :
  deploy_contract env [] = (Val (Some h), t) ->
  (exists pre resp,
     t = pre ++ EvGetTransaction h (Ok resp) :: deployed_messages h
     /\ status resp = SUCCESS)
  /\ fst (run env) = 0%Z.
Proof.
  intros H. split.
  - rewrite deploy_contract_run in H. cbv zeta in H.
    destruct (subprocess_run env keys_argv) as [out | e]; [| discriminate H].
    destruct (Keypair_from_secret env (strip out)) as [deployer | e];
      [| discriminate H].
    destruct (os_path_exists env WASM_PATH); [| discriminate H].
    destruct (read_binary env WASM_PATH) as [wasm_binary | e];
      [| discriminate H].
    destruct (load_account env _ _) as [source | e]; [| discriminate H].
    destruct (build_transaction env _) as [tx | e]; [| discriminate H].
    destruct (prepare_transaction env _ _) as [prepared | e].
    + destruct (send_transaction env _ _) as [response | e];
        [| discriminate H].
      apply wait_for_confirmation_returns in H. exact H.
    + destruct (String.eqb _ _); discriminate H.
  - rewrite run_by_outcome, H. reflexivity.
Qed.

End ReturnedHash.

Lemma returned_hash_was_confirmed_witness :
  (exists pre resp,
     snd (Deploy.deploy_contract Scenarios.confirmed [])
     = pre ++ EvGetTransaction "H2" (Ok resp) :: deployed_messages "H2"
     /\ status resp = SUCCESS)
  /\ fst (Deploy.run Scenarios.confirmed) = 0%Z.
Proof.
  apply (returned_hash_was_confirmed Scenarios.confirmed "H2"
           (snd (Deploy.deploy_contract Scenarios.confirmed []))).
  vm_compute. reflexivity.
Defined.

(** ** The amount conversion on short decimal amounts *)

Section AmountGrid.
Import Validator Amounts.

Lemma upto_spec f k a :
  upto f k a = true ->
  forall n, (a <= n < a + N.of_nat k)%N -> f n = true.
Proof.
  revert a. induction k as [| k IH]; intros a H n Hn.
  - lia.
  - cbn [upto] in H. apply andb_prop in H as [Ha Hrest].
    destruct (N.eq_dec n a) as [-> | Hne]; [exact Ha |].
    apply (IH (N.succ a) Hrest). lia.
Qed.

Lemma grid_checked :
  forallb (fun d => upto (within_one_stroop d) (N.to_nat 5000) 0) (seq 0 8)
  = true.
Proof. vm_compute. reflexivity. Qed.

Lemma within_one_stroop_on_grid d n :
  (d <= 7)%nat -> (n < 5000)%N -> within_one_stroop d n = true.
Proof.
  intros Hd Hn.
  pose proof grid_checked as H. rewrite forallb_forall in H.
  apply (upto_spec _ (N.to_nat 5000) 0%N).
  - apply H. apply in_seq. lia.
  - rewrite N2Nat.id. lia.
Qed.

Lemma conversion_on_grid d n :
  (d <= 7)%nat -> (n < 5000)%N ->
  exists z,
    amount_to_stroops (decimal_amount n d) = Ok z
    /\ exact_stroops n d - 1 <= z <= exact_stroops n d.
Proof.
  intros Hd Hn.
  pose proof (within_one_stroop_on_grid d n Hd Hn) as H.
  unfold within_one_stroop in H.
  destruct (amount_to_stroops (decimal_amount n d)) as [z | e];
    [| discriminate].
  exists z. split; [reflexivity |].
  apply orb_prop in H. rewrite !Z.eqb_eq in H. lia.
Qed.

(** X8: for every amount written with at most 7 fractional digits whose
    digits form a number below 5000 (from 0.0000001 to 4999), the
    conversion [int(float(amount) * 10_000_000)] raises nothing and
    yields the exact number of stroops or one less, never more; so on
    these amounts a larger amount never converts to a smaller integer. *)
Theorem conversion_within_one_stroop d n m :
  (d <= 7)%nat -> (n <= m)%N -> (m < 5000)%N ->
  exists zn zm,
    amount_to_stroops (decimal_amount n d) = Ok zn
    /\ amount_to_stroops (decimal_amount m d) = Ok zm
    /\ exact_stroops n d - 1 <= zn <= exact_stroops n d
    /\ zn <= zm.
Proof.
  intros Hd Hnm Hm.
  destruct (conversion_on_grid d n Hd ltac:(lia)) as (zn & Hzn & Hn).
  destruct (conversion_on_grid d m Hd Hm) as (zm & Hzm & Hm').
  exists zn, zm. repeat split; try assumption; try lia.
  destruct (N.eq_dec n m) as [-> | Hne].
  - rewrite Hzn in Hzm. injection Hzm as ->. lia.
  - pose proof (Z.pow_pos_nonneg 10 (Z.of_nat (7 - d)) ltac:(lia) ltac:(lia))
      as Hp.
    assert (exact_stroops n d + 1 <= exact_stroops m d)
      by (unfold exact_stroops; nia).
    lia.
Qed.

Lemma conversion_within_one_stroop_witness :
  exists zn zm,
    amount_to_stroops (decimal_amount 56 2) = Ok zn
    /\ amount_to_stroops (decimal_amount 57 2) = Ok zm
    /\ exact_stroops 56 2 - 1 <= zn <= exact_stroops 56 2
    /\ zn <= zm.
Proof.
  apply (conversion_within_one_stroop 2 56 57); lia.
Defined.

End AmountGrid.

(** ** How many transactions a run submits *)

Section Submissions.
Import Deploy.
Local Open Scope nat_scope.

Variable env : Env.

(** Brings the number of submissions of [t ++ events] back to that of [t]. *)
Ltac sends :=
  cbn [fst snd];
  rewrite ?count_app;
  cbn [count is_send deployed_messages uploaded_messages key_failure
       wasm_missing reported app Nat.add fst snd].

Lemma deployment_loop_sends response2 n t :
  count is_send (snd (for_range n (deployment_attempt env response2) t))
  = count is_send t.
Proof.
  revert t. induction n as [| n IH]; intros t; [reflexivity |].
  rewrite for_range_step, deployment_attempt_run. cbv zeta.
  destruct (get_transaction env (count is_query t) (hash response2))
    as [resp | e]; [destruct (status resp) |]; try rewrite IH; sends; lia.
Qed.

Lemma deploy_instance_sends deployer response tx_response t :
  count is_send (snd (deploy_instance env deployer response tx_response t))
  <= count is_send t + 1.
Proof.
  unfold deploy_instance, Server_load_account,
    SorobanServer_prepare_transaction, SorobanServer_send_transaction.
  run_py.
  destruct (load_account env _ _) as [source | e]; [| sends; lia].
  destruct (build_transaction env _) as [tx2 | e]; [| sends; lia].
  destruct (prepare_transaction env _ _) as [prepared | e]; [| sends; lia].
  destruct (send_transaction env _ _) as [response2 | e]; [| sends; lia].
  match goal with
  | |- context [for_range 60 (deployment_attempt env response2) ?t2] =>
      pose proof (deployment_loop_sends response2 60 t2) as Hloop;
      revert Hloop;
      destruct (for_range 60 (deployment_attempt env response2) t2)
        as [[[v |] | x] t']
  end; sends; lia.
Qed.

Lemma upload_attempt_sends deployer response t :
  count is_send (snd (upload_attempt env deployer response t))
  <= count is_send t + 1.
Proof.
  rewrite upload_attempt_run, upload_query_run. cbv zeta.
  destruct (get_transaction env (count is_query t) (hash response))
    as [resp | e]; [destruct (status resp) |]; try (sends; lia).
  pose proof (deploy_instance_sends deployer response resp
                (t ++ [EvGetTransaction (hash response) (Ok resp)])) as H.
  revert H.
  destruct (deploy_instance env deployer response resp _)
    as [[v | [c | e]] t']; sends; lia.
Qed.

Lemma upload_loop_sends deployer response n t :
  count is_send (snd (for_range n (upload_attempt env deployer response) t))
  <= count is_send t + n.
Proof.
  revert t. induction n as [| n IH]; intros t; [cbn; lia |].
  rewrite for_range_step.
  pose proof (upload_attempt_sends deployer response t) as H. revert H.
  destruct (upload_attempt env deployer response t) as [[[v |] | e] t'];
    cbn [snd]; intros H; try lia.
  specialize (IH t'). lia.
Qed.

(** X11: whatever the world does, a run submits at most 61 transactions:
    the upload, and at most one contract creation for each of the 60
    passes of the upload loop.  The bound is reached in the world
    [worst_case], where 60 contract creations are submitted for one
    upload. *)
Theorem submissions_bound :
  count is_send (snd (run env)) <= 61
  /\ count is_send (snd (run Failures.worst_case)) = 61.
Proof.
  split; [| apply worst_case_measured].
  rewrite run_by_outcome.
  assert (H : count is_send (snd (deploy_contract env [])) <= 61).
  { rewrite deploy_contract_run. cbv zeta.
    destruct (subprocess_run env keys_argv) as [out | e]; [| sends; lia].
    destruct (Keypair_from_secret env (strip out)) as [deployer | e];
      [| sends; lia].
    destruct (os_path_exists env WASM_PATH); [| sends; lia].
    destruct (read_binary env WASM_PATH) as [wasm_binary | e]; [| sends; lia].
    destruct (load_account env _ _) as [source | e]; [| sends; lia].
    destruct (build_transaction env _) as [tx | e]; [| sends; lia].
    destruct (prepare_transaction env _ _) as [prepared | e];
      [| destruct (String.eqb _ _); sends; lia].
    destruct (send_transaction env _ _) as [response | e]; [| sends; lia].
    unfold wait_for_confirmation. run_py.
    match goal with
    | |- context [for_range 60 (upload_attempt env deployer response) ?t'] =>
        pose proof (upload_loop_sends deployer response 60 t') as Hloop;
        revert Hloop;
        destruct (for_range 60 (upload_attempt env deployer response) t')
          as [[[v |] | x] t'']
    end; sends; lia. }
  revert H.
  destruct (deploy_contract env []) as [[v | [c | e]] t]; cbn [snd];
    intros H; try lia.
  - destruct (truthy_str v); sends; lia.
  - sends. lia.
Qed.

End Submissions.

(** ** The command-line deployment script *)

Section CliFacts.
Import Cli.



End CliFacts.
